(** * PoolSync number platform: a shallow embedding of [number.py]

    The module [custom_components/poolsync_custom/number.py] exposes the
    chlorinator output, the heat-pump setpoint and the heat-pump mode of a
    pool installation as adjustable numbers.  This file embeds

    - the JSON-like state tree the coordinator caches,
    - Python's [float(...)] and [int(...)] coercions on those values,
      over IEEE binary64 (Rocq's primitive floats),
    - [PoolSyncChlorOutputNumberEntity.native_value] and
      [PoolSyncChlorOutputNumberEntity.async_set_native_value],
    - [async_setup_entry] with its device-id discovery,

    and proves the properties of unit conversion, error handling, call
    ordering and discovery stated for them. *)

From Stdlib Require Import ZArith QArith Qfield Qpower Qabs Lqa List String Ascii
  Bool Lia Floats.
From ExtLib Require Import Structures.Monad Structures.MonadExc.
Import ListNotations.
Import MonadNotation.

Set Warnings "-inexact-float,-register-all".

Local Open Scope string_scope.
Local Open Scope list_scope.
Local Open Scope Z_scope.
Local Open Scope monad_scope.

(** ** Python values *)

(** What [json] decoding yields, and so what the coordinator's state tree
    holds: [None], booleans, unbounded integers, binary64 floats, strings,
    lists and insertion-ordered dictionaries with string keys. *)
Inductive PyVal : Type :=
| PNone
| PBool (b : bool)
| PInt (z : Z)
| PFloat (f : float)
| PStr (s : string)
| PList (l : list PyVal)
| PDict (d : list (string * PyVal)).

(** A dictionary in iteration (insertion) order. *)
Definition Dict : Type := list (string * PyVal).

(** [d.get(k)]: the value bound to [k], or Python's [None] ([PNone]). *)
Fixpoint dict_lookup (d : Dict) (k : string) : option PyVal :=
  match d with
  | [] => None
  | (k', v) :: rest => if String.eqb k' k then Some v else dict_lookup rest k
  end.

Definition dict_get (d : Dict) (k : string) : PyVal :=
  match dict_lookup d k with
  | Some v => v
  | None => PNone
  end.


(** [v == s] for a string literal [s]. *)
Definition py_eq_str (v : PyVal) (s : string) : bool :=
  match v with
  | PStr s' => String.eqb s' s
  | _ => false
  end.

(** ** Exceptions *)

(** The classes of [Exception] this module meets.  [HomeAssistantError] is
    the platform's error; [HomeAssistantErrorSubclass] stands for any class
    derived from it and [OtherException] for any other class derived from
    [Exception], both as an external collaborator may raise them.  Signals
    that derive from [BaseException] only (task cancellation, interpreter
    exit) are control flow of the host, not failures of a call, and are
    not modelled. *)
Inductive ExcClass : Type :=
| ValueError
| TypeError
| OverflowError
| IndexError
| HomeAssistantError
| HomeAssistantErrorSubclass (cls : string)
| OtherException (cls : string).

(** An exception object: its class, [str(e)], and the exception that was
    being handled when it was raised ([__context__]). *)
Inductive PyExc : Type :=
| Exc (cls : ExcClass) (msg : string) (context : option PyExc).

Definition exc_class (e : PyExc) : ExcClass := let 'Exc c _ _ := e in c.
Definition exc_str (e : PyExc) : string := let 'Exc _ m _ := e in m.
Definition exc_context (e : PyExc) : option PyExc := let 'Exc _ _ c := e in c.

(** [isinstance(e, HomeAssistantError)], what [except HomeAssistantError]
    tests. *)
Definition isinstance_HomeAssistantError (e : PyExc) : bool :=
  match exc_class e with
  | HomeAssistantError | HomeAssistantErrorSubclass _ => true
  | _ => false
  end.

(** [isinstance(e, (ValueError, TypeError))]. *)
Definition isinstance_ValueError_or_TypeError (e : PyExc) : bool :=
  match exc_class e with
  | ValueError | TypeError => true
  | _ => false
  end.

(** The result of evaluating an expression that may raise. *)
Inductive Outcome (A : Type) : Type :=
| Return (a : A)
| Raise (e : PyExc).
Arguments Return {A} a.
Arguments Raise {A} e.

(** ** Numbers *)

(** The arithmetic the two unit conversions are written in.  The code runs
    them on binary64; the same expressions read over the rationals give the
    exact conversion they approximate. *)
Class Arith (T : Type) : Type := {
  of_int : Z -> T;
  add : T -> T -> T;
  sub : T -> T -> T;
  mul : T -> T -> T;
  div : T -> T -> T
}.

(** An integer as the nearest binary64 (ties to even), or [infinity] past the
    largest finite one. *)
Definition b64_of_Z (z : Z) : float :=
  SF2Prim (binary_normalize prec emax z 0 false).

#[global] Instance binary64 : Arith float := {
  of_int := b64_of_Z;
  add := PrimFloat.add;
  sub := PrimFloat.sub;
  mul := PrimFloat.mul;
  div := PrimFloat.div
}.

#[global] Instance exact : Arith Q := {
  of_int := inject_Z;
  add := Qplus;
  sub := Qminus;
  mul := Qmult;
  div := Qdiv
}.

(** [(new_value * 9 / 5) + 32], line 211. *)
Definition fahrenheit_of_celsius {T : Type} `{Arith T} (c : T) : T :=
  add (div (mul c (of_int 9)) (of_int 5)) (of_int 32).

(** [(num_value - 32) * 5 / 9], line 197. *)
Definition celsius_of_fahrenheit {T : Type} `{Arith T} (f : T) : T :=
  div (mul (sub f (of_int 32)) (of_int 5)) (of_int 9).

(** [int(x)] on a float: the integer part, digits after the point dropped
    (rounding toward zero); [ValueError] on NaN and [OverflowError] on an
    infinity. *)
Definition int_of_float (x : float) : Outcome Z :=
  match Prim2SF x with
  | S754_nan => Raise (Exc ValueError "cannot convert float NaN to integer" None)
  | S754_infinity _ =>
      Raise (Exc OverflowError "cannot convert float infinity to integer" None)
  | S754_zero _ => Return 0
  | S754_finite s m e =>
      let magnitude := Z.shiftl (Z.pos m) e in
      Return (if s then - magnitude else magnitude)
  end.

(** [float(n)] on an integer: the nearest binary64, [OverflowError] when
    there is none. *)
Definition float_of_int (z : Z) : Outcome float :=
  match binary_normalize prec emax z 0 false with
  | S754_infinity _ =>
      Raise (Exc OverflowError "int too large to convert to float" None)
  | sf => Return (SF2Prim sf)
  end.

(** The rational a finite binary64 denotes, [(-1)^s * m * 2^e] (0 for NaN
    and the infinities). *)
Definition Q_of_float (x : float) : Q :=
  match Prim2SF x with
  | S754_finite s m e =>
      let z := if s then Z.neg m else Z.pos m in
      match e with
      | Z.neg p => z # (2 ^ p)%positive
      | _ => inject_Z (z * 2 ^ e)
      end
  | _ => 0%Q
  end.

(** ** Descriptions, coordinator and entities *)

(** The units a description may carry ([native_unit_of_measurement]):
    [PERCENTAGE], [UnitOfTemperature.CELSIUS],
    [UnitOfTemperature.FAHRENHEIT], or any other unit, named by a symbol
    that is none of theirs. *)
Inductive UnitOfMeasurement : Type :=
| PERCENTAGE
| UnitOfTemperature_CELSIUS
| UnitOfTemperature_FAHRENHEIT
| OtherUnit (symbol : string).

(** [unit == UnitOfTemperature.CELSIUS], on the optional unit of a
    description. *)
Definition is_CELSIUS (u : option UnitOfMeasurement) : bool :=
  match u with
  | Some UnitOfTemperature_CELSIUS => true
  | _ => false
  end.

Inductive NumberMode : Type := AUTO | BOX | SLIDER.

Module NumberEntityDescription.
Record t : Type := mk {
  key : string;
  name : string;
  icon : string;
  native_unit_of_measurement : option UnitOfMeasurement;
  native_min_value : PyVal;
  native_max_value : PyVal;
  native_step : PyVal;
  mode : NumberMode
}.
End NumberEntityDescription.

(** The module keeps one list object per control as its data path
    (the second component of each entry of [NUMBER_DESCRIPTIONS_CHLOR] and
    [NUMBER_DESCRIPTIONS_HEATPUMP]).  Setup writes the device id into the
    list and hands the very same list to the entity, so an entity's path
    is a reference to a module-level cell, read when the entity is used. *)
Inductive PathRef : Type :=
| chlorOutput_path
| setpoint_path
| mode_path.

(** The contents of the three module-level path lists. *)
Record Heap : Type := mkHeap {
  chlorOutput_cell : list string;
  setpoint_cell : list string;
  mode_cell : list string
}.

Definition deref (h : Heap) (r : PathRef) : list string :=
  match r with
  | chlorOutput_path => chlorOutput_cell h
  | setpoint_path => setpoint_cell h
  | mode_path => mode_cell h
  end.

Definition assign (h : Heap) (r : PathRef) (l : list string) : Heap :=
  match r with
  | chlorOutput_path => mkHeap l (setpoint_cell h) (mode_cell h)
  | setpoint_path => mkHeap (chlorOutput_cell h) l (mode_cell h)
  | mode_path => mkHeap (chlorOutput_cell h) (setpoint_cell h) l
  end.

(** [l[n] = x] on a list that has an index [n]. *)
Fixpoint list_set (l : list string) (n : nat) (x : string) : option (list string) :=
  match l, n with
  | [], _ => None
  | _ :: tl, O => Some (x :: tl)
  | hd :: tl, S n' =>
      match list_set tl n' x with
      | Some tl' => Some (hd :: tl')
      | None => None
      end
  end.

(** What the module reads of a [PoolSyncDataUpdateCoordinator] at one
    instant: its name, the cached state tree ([None] before the first
    refresh), the stored API password (absent attribute and [None] are both
    [None] here), the identity used for unique ids, and how its two
    awaited operations answer: [api_client._request_patch(...)] and
    [async_request_refresh()]. *)
Module Coordinator.
Record t : Type := mk {
  name : string;
  data : option Dict;
  _password : option string;
  mac_address : string;
  device_info : PyVal;
  _request_patch : string -> string -> Z -> string -> Outcome PyVal;
  async_request_refresh : Outcome unit
}.
End Coordinator.

(** [coordinator.data] as a value. *)
Definition data_value (c : Coordinator.t) : PyVal :=
  match Coordinator.data c with
  | Some d => PDict d
  | None => PNone
  end.

(** The password when [hasattr(coordinator, '_password')] and
    [coordinator._password] is truthy. *)
Definition credential (c : Coordinator.t) : option string :=
  match Coordinator._password c with
  | Some "" => None
  | Some p => Some p
  | None => None
  end.

(** The fields [__init__] sets.  [self.coordinator] is passed to the
    methods below instead of being stored, since it is the coordinator as it
    is at the call that matters. *)
Record PoolSyncChlorOutputNumberEntity : Type := mkEntity {
  entity_description : NumberEntityDescription.t;
  _data_path : PathRef;
  _value_fn : option (PyVal -> PyVal);
  _attr_unique_id : string;
  _attr_device_info : PyVal
}.

(** ** Effects *)

Inductive LogLevel : Type := debug | info | warning | error | exception.

(** What a run does to the outside: a log record (the level and the
    message template as written in the code, its arguments left out; a
    message that is all argument is recorded as ["%s"]), the awaited update
    call with its four keyword arguments, the awaited refresh request, and
    the registration callback with the entities it is given. *)
Inductive Event : Type :=
| Log (level : LogLevel) (template : string)
| RequestPatch (deviceId keyId : string) (value : Z) (password : string)
| RequestRefresh
| AddEntities (entities : list PoolSyncChlorOutputNumberEntity).

(** A computation reads and writes the module-level path lists, emits
    events in order, and returns or raises.  What was written and emitted
    before an exception stays. *)
Definition M (A : Type) : Type := Heap -> Heap * list Event * Outcome A.

#[global] Instance Monad_M : Monad M := {
  ret := fun A (a : A) h => (h, [], Return a);
  bind := fun A B (m : M A) (f : A -> M B) h =>
    let '(h1, ev1, o) := m h in
    match o with
    | Return a => let '(h2, ev2, o2) := f a h1 in (h2, ev1 ++ ev2, o2)
    | Raise e => (h1, ev1, Raise e)
    end
}.

(** [raise] and [try: ... except Exception as e: ...]. *)
#[global] Instance Exc_M : MonadExc PyExc M := {
  raise := fun A (e : PyExc) h => (h, [], Raise e);
  catch := fun A (body : M A) (handler : PyExc -> M A) h =>
    let '(h1, ev1, o) := body h in
    match o with
    | Return a => (h1, ev1, Return a)
    | Raise e => let '(h2, ev2, o2) := handler e h1 in (h2, ev1 ++ ev2, o2)
    end
}.

Definition heap_of {A : Type} (r : Heap * list Event * Outcome A) : Heap :=
  fst (fst r).
Definition events_of {A : Type} (r : Heap * list Event * Outcome A) : list Event :=
  snd (fst r).
Definition outcome_of {A : Type} (r : Heap * list Event * Outcome A) : Outcome A :=
  snd r.

(** An expression that may raise, evaluated in place. *)
Definition eval {A : Type} (o : Outcome A) : M A := fun h => (h, [], o).

(** [_LOGGER.<level>(template, ...)]. *)
Definition log (level : LogLevel) (template : string) : M unit :=
  fun h => (h, [Log level template], Return tt).

(** The current contents of a path list. *)
Definition read_path (r : PathRef) : M (list string) :=
  fun h => (h, [], Return (deref h r)).

(** [l[n]]. *)
Definition getitem (l : list string) (n : nat) : M string :=
  match nth_error l n with
  | Some x => ret x
  | None => raise (Exc IndexError "list index out of range" None)
  end.

(** [r[n] = x], in place. *)
Definition setitem (r : PathRef) (n : nat) (x : string) : M unit :=
  fun h =>
    match list_set (deref h r) n x with
    | Some l => (assign h r l, [], Return tt)
    | None =>
        (h, [], Raise (Exc IndexError "list assignment index out of range" None))
    end.

(** [await coordinator.api_client._request_patch(deviceId=..., keyId=...,
    value=..., password=...)]. *)
Definition await_request_patch (c : Coordinator.t)
    (deviceId keyId : string) (value : Z) (password : string) : M PyVal :=
  fun h => (h, [RequestPatch deviceId keyId value password],
            Coordinator._request_patch c deviceId keyId value password).

(** [await coordinator.async_request_refresh()]. *)
Definition await_request_refresh (c : Coordinator.t) : M unit :=
  fun h => (h, [RequestRefresh], Coordinator.async_request_refresh c).

(** [async_add_entities(entities)]. *)
Definition async_add_entities (l : list PoolSyncChlorOutputNumberEntity) : M unit :=
  fun h => (h, [AddEntities l], Return tt).

(** ** The path resolver *)

(** Modelled from the spec: [_get_value_from_path] is imported from
    [sensor.py], which is not among the sources.  Following section 4.1:
    the path is walked key by key; a node that is not a mapping or a key
    that is not present gives Absent; so do a terminal [null] and the empty
    path; otherwise the terminal value is returned.  Absent is [None]. *)
Fixpoint _get_value_from_path (data : PyVal) (path : list string) : option PyVal :=
  match path with
  | [] => None
  | k :: rest =>
      match data with
      | PDict d =>
          match dict_lookup d k with
          | Some v =>
              match rest with
              | [] => match v with PNone => None | _ => Some v end
              | _ :: _ => _get_value_from_path v rest
              end
          | None => None
          end
      | _ => None
      end
  end.

(** ** The platform *)

Section Platform.

(** The default device ids of [const.py], which is not among the sources. *)
Variables CHLORINATOR_ID HEATPUMP_ID : string.

(** Python's [float(s)] on a string: the float the text denotes, or
    [None] where [float] raises [ValueError]. *)
Variable float_of_str : string -> option float.

(** [float(value)]. *)
Definition float_of_value (value : PyVal) : Outcome float :=
  match value with
  | PFloat f => Return f
  | PInt z => float_of_int z
  | PBool b => Return (if b then 1%float else 0%float)
  | PStr s =>
      match float_of_str s with
      | Some f => Return f
      | None => Raise (Exc ValueError "could not convert string to float" None)
      end
  | PNone | PList _ | PDict _ =>
      Raise (Exc TypeError
               "float() argument must be a string or a real number" None)
  end.

(** *** Module-level tables (lines 30-64) *)

Definition chlor_output_control : NumberEntityDescription.t :=
  NumberEntityDescription.mk "chlor_output_control" "Chlorinator Output"
    "mdi:knob" (Some PERCENTAGE) (PInt 0) (PInt 100) (PInt 1) SLIDER.

Definition temperature_output_control : NumberEntityDescription.t :=
  NumberEntityDescription.mk "temperature_output_control" "Temperature Output"
    "mdi:knob" (Some UnitOfTemperature_CELSIUS) (PInt 5) (PInt 40)
    (PFloat 0.5) SLIDER.

Definition heat_mode : NumberEntityDescription.t :=
  NumberEntityDescription.mk "heat_mode" "heat_mode"
    "mdi:knob" None (PInt 0) (PInt 2) (PInt 1) BOX.

Definition DescriptionEntry : Type :=
  (NumberEntityDescription.t * PathRef * option (PyVal -> PyVal))%type.

Definition NUMBER_DESCRIPTIONS_CHLOR : list DescriptionEntry :=
  [(chlor_output_control, chlorOutput_path, None)].

Definition NUMBER_DESCRIPTIONS_HEATPUMP : list DescriptionEntry :=
  [(temperature_output_control, setpoint_path, None);
   (heat_mode, mode_path, None)].

(** The three path lists holding the given device ids at index 1: every
    state the module can be in, since only index 1 is ever assigned. *)
Definition module_heap (chlor_id setpoint_id mode_id : string) : Heap :=
  mkHeap ["devices"; chlor_id; "config"; "chlorOutput"]
         ["devices"; setpoint_id; "config"; "setpoint"]
         ["devices"; mode_id; "config"; "mode"].

(** The path lists as the module defines them. *)
Definition initial_heap : Heap :=
  module_heap CHLORINATOR_ID HEATPUMP_ID HEATPUMP_ID.

(** *** The entity (lines 161-253) *)

Definition __init__ (coordinator : Coordinator.t)
    (description : NumberEntityDescription.t) (data_path : PathRef)
    (value_fn : option (PyVal -> PyVal)) : M PoolSyncChlorOutputNumberEntity :=
  let self :=
    mkEntity description data_path value_fn
      (Coordinator.mac_address coordinator ++ "_"
         ++ NumberEntityDescription.key description)%string
      (Coordinator.device_info coordinator) in
  log debug "NUMBER_ENTITY %s: Initialized. Unique ID: %s, Data Path: %s" ;;
  ret self.

Definition native_value (self : PoolSyncChlorOutputNumberEntity)
    (coordinator : Coordinator.t) : M (option float) :=
  data_path <- read_path (_data_path self) ;;
  match _get_value_from_path (data_value coordinator) data_path with
  | None => ret None
  | Some value =>
      catch
        (num_value <- eval (float_of_value value) ;;
         let num_value :=
           if is_CELSIUS (NumberEntityDescription.native_unit_of_measurement
                            (entity_description self))
           then celsius_of_fahrenheit num_value
           else num_value in
         ret (Some num_value))
        (fun e =>
           if isinstance_ValueError_or_TypeError e
           then
             log error
               "NUMBER_ENTITY %s: could not convert value '%s' (type: %s) to float from path %s" ;;
             ret None
           else raise e)
  end.

Definition async_set_native_value (self : PoolSyncChlorOutputNumberEntity)
    (coordinator : Coordinator.t) (value : float) : M unit :=
  let new_value := value in
  let new_value :=
    if is_CELSIUS (NumberEntityDescription.native_unit_of_measurement
                     (entity_description self))
    then fahrenheit_of_celsius new_value
    else new_value in
  new_value <- eval (int_of_float new_value) ;;
  datapath <- read_path (_data_path self) ;;
  log info "%s" ;;
  deviceId <- getitem datapath 1 ;;
  keyId <- getitem datapath 3 ;;
  log info
    "NUMBER_ENTITY %s: Attempting to set native_value to %d (from HA UI float value: %f)" ;;
  match credential coordinator with
  | None =>
      log error
        "NUMBER_ENTITY %s: Password not available on coordinator. Cannot set value." ;;
      raise (Exc HomeAssistantError "API password not available to set value." None)
  | Some current_api_password =>
      log debug "NUMBER_ENTITY %s: Using password from coordinator to set value." ;;
      catch
        (log debug "NUMBER_ENTITY %s: Calling api_client._request_patch with value %d" ;;
         api_response <- await_request_patch coordinator deviceId keyId
                           new_value current_api_password ;;
         log info
           "NUMBER_ENTITY %s: API call to set chlor_output to %d completed. Response: %s" ;;
         log debug "NUMBER_ENTITY %s: Requesting coordinator refresh after setting value." ;;
         await_request_refresh coordinator ;;
         log info "NUMBER_ENTITY %s: Successfully set value to %d and requested refresh.")
        (fun e =>
           if isinstance_HomeAssistantError e
           then raise e
           else
             log error "NUMBER_ENTITY %s: Failed to set new value %d: %s" ;;
             raise (Exc HomeAssistantError
                      ("Failed to set value: " ++ exc_str e)%string (Some e)))
  end.

(** *** Setup (lines 66-158) *)

(** [temp = [key for key, value in deviceTypes.items() if value == ty]]
    followed by [temp[0] if temp else "-1"]. *)
Definition first_key_of_type (deviceTypes : Dict) (ty : string) : string :=
  let temp :=
    map fst (filter (fun kv => py_eq_str (snd kv) ty) deviceTypes) in
  match temp with
  | k :: _ => k
  | [] => "-1"
  end.

(** Lines 96-103: the pair [(heatpump_id, chlor_id)]. *)
Definition discover_device_ids (data : Dict) : string * string :=
  match dict_get data "deviceType" with
  | PDict deviceTypes =>
      (first_key_of_type deviceTypes "heatPump",
       first_key_of_type deviceTypes "chlorSync")
  | _ => (HEATPUMP_ID, CHLORINATOR_ID)
  end.

(** The body of the two [for] loops (lines 106-127 and 130-151), which
    differ in the table and the id only; the entities appended to
    [number_entities] are returned in order. *)
Fixpoint create_entities (coordinator : Coordinator.t) (device_id : string)
    (table : list DescriptionEntry) : M (list PoolSyncChlorOutputNumberEntity) :=
  match table with
  | [] => ret []
  | (description, data_path, value_fn) :: rest =>
      log debug "NUMBER_PLATFORM: Processing number entity description for key: %s" ;;
      setitem data_path 1 device_id ;;
      path <- read_path data_path ;;
      match _get_value_from_path (data_value coordinator) path with
      | None =>
          log warning
            "NUMBER_PLATFORM: Coordinator %s: Value for number entity %s at path %s is None. Entity may be unavailable or show an unexpected state initially."
      | Some current_value =>
          log debug
            "NUMBER_PLATFORM: Coordinator %s: Initial value for number entity %s at path %s is %s."
      end ;;
      appended <-
        catch
          (entity_instance <- __init__ coordinator description data_path value_fn ;;
           log debug "NUMBER_PLATFORM: Successfully created instance for %s." ;;
           ret [entity_instance])
          (fun e =>
             log exception "NUMBER_PLATFORM: Error creating instance for %s: %s" ;;
             ret []) ;;
      others <- create_entities coordinator device_id rest ;;
      ret (appended ++ others)
  end.

Definition async_setup_entry (coordinator : Coordinator.t) : M unit :=
  log debug "NUMBER_PLATFORM: Starting async_setup_entry for %s." ;;
  log info "NUMBER_PLATFORM: Starting async_setup_entry for %s." ;;
  match Coordinator.data coordinator with
  | None | Some [] =>
      log warning
        "NUMBER_PLATFORM: Coordinator %s has no data. Cannot set up number entities."
  | Some data =>
      match dict_get data "devices" with
      | PDict devices =>
          match dict_get devices "0" with
          | PDict _ =>
              log debug
                "NUMBER_PLATFORM: Coordinator data seems valid for device '0'. Proceeding to create number entities." ;;
              let '(heatpump_id, chlor_id) := discover_device_ids data in
              chlor_entities <-
                (if negb (chlor_id =? "-1")%string
                 then create_entities coordinator chlor_id NUMBER_DESCRIPTIONS_CHLOR
                 else ret []) ;;
              heatpump_entities <-
                (if negb (heatpump_id =? "-1")%string
                 then create_entities coordinator heatpump_id
                        NUMBER_DESCRIPTIONS_HEATPUMP
                 else ret []) ;;
              let number_entities := chlor_entities ++ heatpump_entities in
              match number_entities with
              | _ :: _ =>
                  log debug "NUMBER_PLATFORM: Adding %d number entities." ;;
                  async_add_entities number_entities ;;
                  log info "NUMBER_PLATFORM: Added %d PoolSync number entities for %s"
              | [] =>
                  log warning
                    "NUMBER_PLATFORM: No number entities were created for %s. Check descriptions and data paths."
              end
          | _ =>
              log warning
                "NUMBER_PLATFORM: Coordinator %s data 'devices' dictionary is missing '0' key or it's not a dict. Chlorinator Output number entity cannot be set up. devices content: %s"
          end
      | _ =>
          log warning
            "NUMBER_PLATFORM: Coordinator %s data is missing 'devices' dictionary. Cannot set up Chlorinator Output."
      end
  end.

(** The entities handed to the registration callback during a run. *)
Fixpoint added_entities (evs : list Event) : list PoolSyncChlorOutputNumberEntity :=
  match evs with
  | [] => []
  | AddEntities l :: rest => l ++ added_entities rest
  | _ :: rest => added_entities rest
  end.


(** *** Reference inputs *)

(** The integer part of a rational: the quotient rounded toward zero. *)
Definition Qtrunc (q : Q) : Z := Z.quot (Qnum q) (Z.pos (Qden q)).

(** The values the setpoint slider offers: [native_min_value] 5 to
    [native_max_value] 40 in steps of [native_step] 0.5. *)
Definition setpoint_settings : list float :=
  map (fun k => (b64_of_Z (Z.of_nat k) / 2)%float) (seq 10 71).


(** A state tree with a chlorinator "5" and a heat pump "7". *)
Definition example_tree : Dict :=
  [("devices",
    PDict [("0", PDict []);
           ("5", PDict [("config", PDict [("chlorOutput", PInt 42)])]);
           ("7", PDict [("config", PDict [("setpoint", PFloat 98.6);
                                          ("mode", PInt 1)])])]);
   ("deviceType", PDict [("5", PStr "chlorSync"); ("7", PStr "heatPump")])].

(** The same installation reporting an integer no binary64 is near. *)
Definition overflowing_tree : Dict :=
  [("devices",
    PDict [("0", PDict []);
           ("5", PDict [("config", PDict [("chlorOutput", PInt (10 ^ 400))])])]);
   ("deviceType", PDict [("5", PStr "chlorSync")])].

(** A second installation, whose chlorinator is device "2". *)
Definition second_tree : Dict :=
  [("devices",
    PDict [("0", PDict []);
           ("2", PDict [("config", PDict [("chlorOutput", PInt 10)])])]);
   ("deviceType", PDict [("2", PStr "chlorSync")])].


(** A coordinator over a tree, with the given password and the given
    answers of its update and refresh operations. *)
Definition example_coordinator (tree : option Dict) (password : option string)
    (patch : Outcome PyVal) (refresh : Outcome unit) : Coordinator.t :=
  Coordinator.mk "PoolSync" tree password "00:11:22:33:44:55" PNone
    (fun _ _ _ _ => patch) refresh.

(** The entities setup builds for [example_coordinator]. *)
Definition chlor_entity : PoolSyncChlorOutputNumberEntity :=
  mkEntity chlor_output_control chlorOutput_path None
    "00:11:22:33:44:55_chlor_output_control" PNone.

Definition setpoint_entity : PoolSyncChlorOutputNumberEntity :=
  mkEntity temperature_output_control setpoint_path None
    "00:11:22:33:44:55_temperature_output_control" PNone.

Definition mode_entity : PoolSyncChlorOutputNumberEntity :=
  mkEntity heat_mode mode_path None "00:11:22:33:44:55_heat_mode" PNone.

(** The error raised when no password is available (line 226). *)
Definition CredentialUnavailable : PyExc :=
  Exc HomeAssistantError "API password not available to set value." None.

(** The error a failed update is wrapped in (line 253). *)
Definition WriteFailed (cause : PyExc) : PyExc :=
  Exc HomeAssistantError ("Failed to set value: " ++ exc_str cause)%string
    (Some cause).

(** The value [async_set_native_value] converts to an integer (lines
    208-211). *)
Definition converted_value (self : PoolSyncChlorOutputNumberEntity)
    (value : float) : float :=
  if is_CELSIUS (NumberEntityDescription.native_unit_of_measurement
                   (entity_description self))
  then (value * 9 / 5 + 32)%float
  else value.

(** The events of a run that reach a collaborator: everything but the log
    records. *)
Definition is_call (e : Event) : bool :=
  match e with
  | Log _ _ => false
  | _ => true
  end.

Definition calls (evs : list Event) : list Event := filter is_call evs.

(** What the [except] clauses of [async_set_native_value] re-raise for a
    failure caught in the [try] block (lines 246-253). *)
Definition surfaced (e : PyExc) : PyExc :=
  if isinstance_HomeAssistantError e then e else WriteFailed e.

(** The entity [__init__] builds from an entry of a description table. *)
Definition built (coordinator : Coordinator.t) (entry : DescriptionEntry)
    : PoolSyncChlorOutputNumberEntity :=
  let '(description, data_path, value_fn) := entry in
  mkEntity description data_path value_fn
    (Coordinator.mac_address coordinator ++ "_"
       ++ NumberEntityDescription.key description)%string
    (Coordinator.device_info coordinator).

(** The tree passes the three checks setup starts with (lines 78-92): it is
    not empty, its ["devices"] is a mapping, and that mapping's ["0"] is a
    mapping. *)
Definition valid_for_setup (coordinator : Coordinator.t) : Prop :=
  exists data devices device0,
    Coordinator.data coordinator = Some data
    /\ data <> []
    /\ dict_get data "devices" = PDict devices
    /\ dict_get devices "0" = PDict device0.

(** *** Proof steps *)

(** Case analysis along a branch lemma of the shape [heap /\ tree], where
    [tree] is a nest of matches ending in [calls /\ outcome]: one goal per
    branch, with the calls and the outcome of the branch as hypotheses. *)
Ltac branch_cases lemma :=
  let Hheap := fresh "Hheap" in
  let Hcases := fresh "Hcases" in
  destruct lemma as [Hheap Hcases];
  cbv zeta in Hcases;
  repeat match type of Hcases with
    | match ?x with _ => _ end => destruct x eqn:?
    end;
  let Hcalls := fresh "Hcalls" in
  let Hout := fresh "Hout" in
  destruct Hcases as [Hcalls Hout].

(** Split on what the resolver finds, wherever the goal asks it. *)
Ltac split_resolver :=
  repeat match goal with
    | |- context [_get_value_from_path ?tree ?path] =>
        destruct (_get_value_from_path tree path);
        cbn -[_get_value_from_path]
    end.

(** *** Further reference definitions *)

(** The key each module-level path list ends in (index 3 of the lists at
    lines 40, 54 and 63). *)
Definition path_key (r : PathRef) : string :=
  match r with
  | chlorOutput_path => "chlorOutput"
  | setpoint_path => "setpoint"
  | mode_path => "mode"
  end.

(** The device id the list [r] holds in the state [module_heap a b c]. *)
Definition path_device (a b c : string) (r : PathRef) : string :=
  match r with
  | chlorOutput_path => a
  | setpoint_path => b
  | mode_path => c
  end.

(** A state tree in which device [device] reports [v] under [config]/[key],
    and nothing else. *)
Definition tree_holding (device key : string) (v : PyVal) : Dict :=
  [("devices", PDict [(device, PDict [("config", PDict [(key, v)])])])].

(** The values the chlorinator slider offers, 0 to 100 in steps of 1. *)
Definition chlor_settings : list float :=
  map (fun k => b64_of_Z (Z.of_nat k)) (seq 0 101).

(** An installation whose heat pump is listed under the key "-1". *)
Definition sentinel_keyed_tree : Dict :=
  [("devices",
    PDict [("0", PDict [("config", PDict [("chlorOutput", PInt 42)])]);
           ("-1", PDict [("config", PDict [("setpoint", PInt 80)])])]);
   ("deviceType", PDict [("0", PStr "chlorSync"); ("-1", PStr "heatPump")])].

(** The entities a run of setup registers when discovery yields the ids
    [heatpump_id] and [chlor_id] (lines 105 and 129). *)
Definition registered (coordinator : Coordinator.t)
    (heatpump_id chlor_id : string) : list PoolSyncChlorOutputNumberEntity :=
  (if (chlor_id =? "-1")%string then []
   else map (built coordinator) NUMBER_DESCRIPTIONS_CHLOR)
  ++ (if (heatpump_id =? "-1")%string then []
      else map (built coordinator) NUMBER_DESCRIPTIONS_HEATPUMP).

(** The characters of a string, first to last. *)
Fixpoint chars (s : string) : list ascii :=
  match s with
  | EmptyString => []
  | String c rest => c :: chars rest
  end.

(** The whole Fahrenheit degrees the setpoint settings are sent as. *)
Definition fahrenheit_degrees : list Z := map Z.of_nat (seq 41 64).

(** Every entry of the two description tables. *)
Definition all_descriptions : list DescriptionEntry :=
  NUMBER_DESCRIPTIONS_CHLOR ++ NUMBER_DESCRIPTIONS_HEATPUMP.

(** *** Rational readings of binary64 *)



(** ** Properties *)

(** *** Arithmetic *)

(** On binary64 the generic conversions are the expressions of the code,
    with the integer literals read as floats. *)
Lemma fahrenheit_of_celsius_b64 (c : float) :
  fahrenheit_of_celsius c = (c * 9 / 5 + 32)%float.
Proof using Type. reflexivity. Qed.


(** *** The effect plumbing is a monad *)

Lemma bind_ret_l {A B : Type} (a : A) (f : A -> M B) (h : Heap) :
  (x <- ret a ;; f x) h = f a h.
Proof using Type.
  cbn. destruct (f a h) as [[h' evs] o]. reflexivity.
Qed.

Lemma bind_ret_r {A : Type} (m : M A) (h : Heap) :
  (x <- m ;; ret x) h = m h.
Proof using Type.
  cbn. destruct (m h) as [[h' evs] [a | e]]; cbn;
    rewrite ?app_nil_r; reflexivity.
Qed.

Lemma bind_assoc {A B C : Type} (m : M A) (f : A -> M B) (g : B -> M C)
    (h : Heap) :
  (y <- (x <- m ;; f x) ;; g y) h = (x <- m ;; y <- f x ;; g y) h.
Proof using Type.
  cbn. destruct (m h) as [[h1 ev1] [a | e]]; [ | reflexivity ].
  destruct (f a h1) as [[h2 ev2] [b | e]]; [ | reflexivity ].
  destruct (g b h2) as [[h3 ev3] o]. rewrite app_assoc. reflexivity.
Qed.

(** An exception raised in a [try] body reaches the handler with what the
    body did before it kept. *)
Lemma catch_raise {A : Type} (e : PyExc) (handler : PyExc -> M A) (h : Heap) :
  catch (raise e) handler h = handler e h.
Proof using Type.
  cbn. destruct (handler e h) as [[h' evs] o]. reflexivity.
Qed.

(** *** The write path, case by case *)

Lemma In_calls (e : Event) (evs : list Event) :
  In e (calls evs) <-> In e evs /\ is_call e = true.
Proof using Type. unfold calls. apply filter_In. Qed.

(** Every run of [async_set_native_value] follows one branch of this tree:
    the integer conversion, the two list indexings, the credential test, the
    update call, the refresh request.  The module-level lists are never
    written. *)
Lemma async_set_native_value_cases self coordinator v h :
  let r := async_set_native_value self coordinator v h in
  let path := deref h (_data_path self) in
  heap_of r = h /\
  match int_of_float (converted_value self v) with
  | Raise e => calls (events_of r) = [] /\ outcome_of r = Raise e
  | Return n =>
      match nth_error path 1, nth_error path 3 with
      | Some d, Some k =>
          match credential coordinator with
          | None =>
              calls (events_of r) = [] /\
              outcome_of r = Raise CredentialUnavailable
          | Some p =>
              match Coordinator._request_patch coordinator d k n p with
              | Raise e =>
                  calls (events_of r) = [RequestPatch d k n p] /\
                  outcome_of r = Raise (surfaced e)
              | Return _ =>
                  calls (events_of r) = [RequestPatch d k n p; RequestRefresh] /\
                  outcome_of r =
                    match Coordinator.async_request_refresh coordinator with
                    | Return _ => Return tt
                    | Raise e => Raise (surfaced e)
                    end
              end
          end
      | _, _ =>
          calls (events_of r) = [] /\
          outcome_of r = Raise (Exc IndexError "list index out of range" None)
      end
  end.
Proof using Type.
  unfold async_set_native_value, converted_value, getitem, surfaced,
    CredentialUnavailable, WriteFailed.
  rewrite fahrenheit_of_celsius_b64.
  set (x := if is_CELSIUS _ then _ else v).
  cbn -[nth_error String.append].
  destruct (int_of_float x) as [n | e]; [ | cbn; auto ].
  destruct (nth_error (deref h (_data_path self)) 1) as [d | ];
    cbn -[nth_error String.append]; [ | auto ].
  destruct (nth_error (deref h (_data_path self)) 3) as [k | ];
    cbn -[nth_error String.append]; [ | auto ].
  destruct (credential coordinator) as [p | ];
    cbn -[nth_error String.append]; [ | auto ].
  destruct (Coordinator._request_patch coordinator d k n p) as [resp | e];
    cbn -[nth_error String.append].
  - destruct (Coordinator.async_request_refresh coordinator) as [[] | e];
      cbn -[nth_error String.append]; [ auto | ].
    destruct (isinstance_HomeAssistantError e); cbn; auto.
  - destruct (isinstance_HomeAssistantError e); cbn; auto.
Qed.

(** *** Writing a value *)

(** [int] on a float drops the fractional part: the result is the quotient,
    rounded toward zero, of the rational the float denotes. *)
Lemma int_of_float_truncates (x : float) (n : Z) :
  int_of_float x = Return n -> n = Qtrunc (Q_of_float x).
Proof using Type.
  unfold int_of_float, Q_of_float, Qtrunc.
  destruct (Prim2SF x) as [s | s | | s m e]; try discriminate.
  - intros [= <-]. reflexivity.
  - intros [= <-]. destruct e as [ | p | p].
    + cbn [Z.shiftl Qnum Qden inject_Z].
      rewrite Z.mul_1_r, Z.quot_1_r. destruct s; reflexivity.
    + rewrite Z.shiftl_mul_pow2 by lia.
      cbn [Qnum Qden inject_Z]. rewrite Z.quot_1_r.
      destruct s; [ | reflexivity ].
      rewrite <- Z.mul_opp_l. reflexivity.
    + rewrite Z.shiftl_div_pow2 by lia.
      cbn [Qnum Qden Z.opp].
      rewrite Pos2Z.inj_pow.
      assert (Hpow : 0 < Z.pos 2 ^ Z.pos p) by (apply Z.pow_pos_nonneg; lia).
      destruct s.
      * change (Z.neg m) with (- Z.pos m).
        rewrite Z.quot_opp_l by lia.
        rewrite Z.quot_div_nonneg by lia. reflexivity.
      * rewrite Z.quot_div_nonneg by lia. reflexivity.
Qed.

(** C1. A write converts the value to Fahrenheit as [v * 9 / 5 + 32] when
    the control's unit is Celsius and leaves it as it is otherwise
    ([converted_value]); what reaches the update operation is that value
    with its fraction dropped: the update is only ever called with
    [int(converted)], it is called with it whenever the path has its four
    keys and a password is held, and [int] rounds toward zero.  23.9 on the
    Celsius setpoint is sent as 75 and 20.0 as 68; 5.5, which is 41.9
    degrees Fahrenheit, is sent as 41. *)
Theorem write_sends_truncated_conversion :
  (forall self coordinator v h d k n p,
      In (RequestPatch d k n p)
         (events_of (async_set_native_value self coordinator v h)) ->
      int_of_float (converted_value self v) = Return n)
  /\ (forall self coordinator v h d k n p,
        nth_error (deref h (_data_path self)) 1 = Some d ->
        nth_error (deref h (_data_path self)) 3 = Some k ->
        credential coordinator = Some p ->
        int_of_float (converted_value self v) = Return n ->
        In (RequestPatch d k n p)
           (events_of (async_set_native_value self coordinator v h)))
  /\ (forall x n, int_of_float x = Return n -> n = Qtrunc (Q_of_float x))
  /\ (forall self v,
        let unit :=
          NumberEntityDescription.native_unit_of_measurement
            (entity_description self) in
        (unit = Some UnitOfTemperature_CELSIUS ->
         converted_value self v = (v * 9 / 5 + 32)%float)
        /\ (unit <> Some UnitOfTemperature_CELSIUS ->
            converted_value self v = v))
  /\ (let coordinator :=
        example_coordinator (Some example_tree) (Some "secret")
          (Return PNone) (Return tt) in
      let sent v :=
        calls (events_of (async_set_native_value setpoint_entity coordinator v
                            (module_heap "5" "7" "7"))) in
      sent 23.9%float = [RequestPatch "7" "setpoint" 75 "secret"; RequestRefresh]
      /\ sent 20%float = [RequestPatch "7" "setpoint" 68 "secret"; RequestRefresh]
      /\ sent 5.5%float = [RequestPatch "7" "setpoint" 41 "secret"; RequestRefresh]).
Proof using Type.
  clear CHLORINATOR_ID HEATPUMP_ID float_of_str.
  split; [ | split; [ | split; [ | split ] ] ].
  - intros self coordinator v h d k n p Hin.
    assert (Hc : In (RequestPatch d k n p)
                   (calls (events_of (async_set_native_value self coordinator v h))))
      by (apply In_calls; split; [ exact Hin | reflexivity ]).
    destruct (async_set_native_value_cases self coordinator v h) as [_ Hcases].
    destruct (int_of_float (converted_value self v)) as [n' | e].
    + destruct (nth_error _ 1) as [d' | ];
        [ destruct (nth_error _ 3) as [k' | ] | ];
        try (destruct Hcases as [Hev _]; rewrite Hev in Hc; contradiction).
      destruct (credential coordinator) as [p' | ];
        [ | destruct Hcases as [Hev _]; rewrite Hev in Hc; contradiction ].
      destruct (Coordinator._request_patch coordinator d' k' n' p');
        destruct Hcases as [Hev _]; rewrite Hev in Hc; simpl in Hc;
        intuition (try discriminate); congruence.
    + destruct Hcases as [Hev _]. rewrite Hev in Hc. contradiction.
  - intros self coordinator v h d k n p Hd Hk Hp Hn.
    destruct (async_set_native_value_cases self coordinator v h) as [_ Hcases].
    rewrite Hn, Hd, Hk, Hp in Hcases.
    apply (proj1 (In_calls _ _)).
    destruct (Coordinator._request_patch coordinator d k n p);
      destruct Hcases as [Hev _]; rewrite Hev; simpl; auto.
  - exact int_of_float_truncates.
  - intros self v unit. subst unit. unfold converted_value.
    split.
    + intros ->. reflexivity.
    + intros Hunit.
      destruct (NumberEntityDescription.native_unit_of_measurement
                  (entity_description self)) as [[ | | | ] | ];
        try reflexivity.
      exfalso. apply Hunit. reflexivity.
  - vm_compute. repeat split.
Qed.

(** *** Reading a value *)

(** Every run of [native_value] follows one branch of this tree: the
    resolver, the coercion, the [except] clause. *)
Lemma native_value_cases self coordinator h :
  let r := native_value self coordinator h in
  heap_of r = h /\
  match _get_value_from_path (data_value coordinator)
          (deref h (_data_path self)) with
  | None => events_of r = [] /\ outcome_of r = Return None
  | Some value =>
      match float_of_value value with
      | Return f =>
          events_of r = [] /\
          outcome_of r =
            Return (Some (if is_CELSIUS
                               (NumberEntityDescription.native_unit_of_measurement
                                  (entity_description self))
                          then ((f - 32) * 5 / 9)%float
                          else f))
      | Raise e =>
          if isinstance_ValueError_or_TypeError e
          then (exists template, events_of r = [Log error template]) /\
               outcome_of r = Return None
          else events_of r = [] /\ outcome_of r = Raise e
      end
  end.
Proof using Type.
  unfold native_value. cbn.
  destruct (_get_value_from_path _ _) as [value | ]; cbn; [ | auto ].
  destruct (float_of_value value) as [f | e]; cbn.
  - destruct (is_CELSIUS _); auto.
  - destruct (isinstance_ValueError_or_TypeError e); cbn; eauto.
Qed.

(** The only exception [float] raises that the [except] clause of
    [native_value] lets through is the overflow of an integer. *)
Lemma float_of_value_uncaught (value : PyVal) (e : PyExc) :
  float_of_value value = Raise e ->
  isinstance_ValueError_or_TypeError e = false ->
  exists z, value = PInt z /\ float_of_int z = Raise e
            /\ exc_class e = OverflowError.
Proof using Type.
  destruct value as [ | b | z | f | s | l | d]; cbn; try discriminate;
    try (intros [= <-]; discriminate).
  - intros Hz _. exists z. repeat split; trivial.
    unfold float_of_int in Hz.
    destruct (binary_normalize _ _ _ _ _); try discriminate.
    injection Hz as <-. reflexivity.
  - destruct (float_of_str s); [ discriminate | intros [= <-]; discriminate ].
Qed.

(** C2. When the resolver finds a value and [float] accepts it, a control
    whose unit is Celsius reads [(f - 32) * 5 / 9] and any other control
    reads [f] itself, with nothing logged or written.  On the example
    installation the heat-pump setpoint 98.6 reads 37.0 and the chlorinator
    output 42 reads 42.0. *)
Theorem read_converts_fahrenheit :
  (forall self coordinator h value f,
      _get_value_from_path (data_value coordinator)
        (deref h (_data_path self)) = Some value ->
      float_of_value value = Return f ->
      native_value self coordinator h =
        (h, [],
         Return (Some (if is_CELSIUS
                            (NumberEntityDescription.native_unit_of_measurement
                               (entity_description self))
                       then ((f - 32) * 5 / 9)%float
                       else f))))
  /\ (let coordinator :=
        example_coordinator (Some example_tree) (Some "secret")
          (Return PNone) (Return tt) in
      let h := module_heap "5" "7" "7" in
      native_value setpoint_entity coordinator h = (h, [], Return (Some 37%float))
      /\ native_value chlor_entity coordinator h = (h, [], Return (Some 42%float))).
Proof using Type.
  split.
  - intros self coordinator h value f Hpath Hfloat.
    destruct (native_value_cases self coordinator h) as [Hheap Hcases].
    rewrite Hpath, Hfloat in Hcases. destruct Hcases as [Hev Hout].
    destruct (native_value self coordinator h) as [[h' evs] o].
    unfold heap_of, events_of, outcome_of in *. cbn in *. congruence.
  - cbn zeta. split; vm_compute; reflexivity.
Qed.

(** C3, the input on which the code departs from it.  An integer in the
    tree that no binary64 is near makes [float] raise [OverflowError], which
    [except (ValueError, TypeError)] does not catch: reading the chlorinator
    output of [overflowing_tree] raises instead of giving Absent, and that
    entity is the one setup registers for this tree. *)
Theorem read_raises_on_integer_overflow :
  let coordinator :=
    example_coordinator (Some overflowing_tree) (Some "secret")
      (Return PNone) (Return tt) in
  let setup := async_setup_entry coordinator initial_heap in
  outcome_of setup = Return tt
  /\ added_entities (events_of setup) = [chlor_entity]
  /\ native_value chlor_entity coordinator (heap_of setup) =
       (heap_of setup, [],
        Raise (Exc OverflowError "int too large to convert to float" None)).
Proof using Type.
  cbn zeta. repeat split; vm_compute; reflexivity.
Qed.

(** What the read path does absorb: with no value at the path it gives
    Absent; when [float] raises [ValueError] or [TypeError] it logs one
    error and gives Absent; it never writes the module's path lists; and
    the one exception it can raise is the [OverflowError] of an integer
    [float] cannot represent. *)
Theorem read_absorbs_value_and_type_errors :
  forall self coordinator h,
    let r := native_value self coordinator h in
    let found :=
      _get_value_from_path (data_value coordinator)
        (deref h (_data_path self)) in
    heap_of r = h
    /\ (found = None -> events_of r = [] /\ outcome_of r = Return None)
    /\ (forall value e,
          found = Some value ->
          float_of_value value = Raise e ->
          isinstance_ValueError_or_TypeError e = true ->
          (exists template, events_of r = [Log error template])
          /\ outcome_of r = Return None)
    /\ (forall e,
          outcome_of r = Raise e ->
          exists z, found = Some (PInt z) /\ float_of_int z = Raise e
                    /\ exc_class e = OverflowError).
Proof using Type.
  intros self coordinator h r found.
  destruct (native_value_cases self coordinator h) as [Hheap Hcases].
  fold r found in Hheap, Hcases.
  split; [ exact Hheap | ].
  split; [ | split ].
  - intros Hnone. rewrite Hnone in Hcases. exact Hcases.
  - intros value e Hfound Hfloat Hcaught.
    rewrite Hfound, Hfloat, Hcaught in Hcases. exact Hcases.
  - intros e Hraise.
    destruct found as [value | ].
    + destruct (float_of_value value) as [f | e'] eqn:Hfloat.
      * destruct Hcases as [_ Hout]. rewrite Hout in Hraise. discriminate.
      * destruct (isinstance_ValueError_or_TypeError e') eqn:Hcaught.
        -- destruct Hcases as [_ Hout]. rewrite Hout in Hraise. discriminate.
        -- destruct Hcases as [_ Hout]. rewrite Hout in Hraise.
           injection Hraise as <-.
           destruct (float_of_value_uncaught value e' Hfloat Hcaught)
             as [z [-> [Hz Hcls]]].
           exists z. auto.
    + destruct Hcases as [_ Hout]. rewrite Hout in Hraise. discriminate.
Qed.

(** *** Failures and ordering on the write path *)

Lemma In_events_calls (e : Event) (evs : list Event) :
  is_call e = true -> In e evs -> In e (calls evs).
Proof using Type. intros He Hin. apply In_calls. auto. Qed.

(** C4, as the code has it.  Without a usable password the update
    operation is not called, whatever the value and the path; the write
    fails with the missing-credential error whenever it gets as far as the
    credential test, that is when [int] accepts the converted value (it is
    neither NaN nor infinite) and the path has its device and key
    entries. *)
Theorem write_without_credential :
  forall self coordinator v h,
    credential coordinator = None ->
    let r := async_set_native_value self coordinator v h in
    (forall d k n p, ~ In (RequestPatch d k n p) (events_of r))
    /\ ~ In RequestRefresh (events_of r)
    /\ (forall n d k,
          int_of_float (converted_value self v) = Return n ->
          nth_error (deref h (_data_path self)) 1 = Some d ->
          nth_error (deref h (_data_path self)) 3 = Some k ->
          outcome_of r = Raise CredentialUnavailable).
Proof using Type.
  intros self coordinator v h Hcred r. subst r.
  split; [ | split ].
  - intros d k n p Hin.
    apply (In_events_calls (RequestPatch d k n p) _ eq_refl) in Hin.
    branch_cases (async_set_native_value_cases self coordinator v h); rewrite Hcalls in Hin;
      solve [ contradiction | congruence ].
  - intros Hin.
    apply (In_events_calls RequestRefresh _ eq_refl) in Hin.
    branch_cases (async_set_native_value_cases self coordinator v h); rewrite Hcalls in Hin;
      solve [ contradiction | congruence ].
  - intros n d k Hn Hd Hk.
    destruct (async_set_native_value_cases self coordinator v h) as [_ Hcases].
    cbv zeta in Hcases. rewrite Hn, Hd, Hk, Hcred in Hcases.
    exact (proj2 Hcases).
Qed.

(** C5. When the update operation raises, the write raises: the same
    exception if it is a [HomeAssistantError] (or of a class derived from
    it), and otherwise a [HomeAssistantError] whose message carries the
    text of the cause and whose context is the cause.  A write that
    returns normally has called the update and requested the refresh, and
    both returned. *)
Theorem write_failure_is_surfaced :
  (forall self coordinator v h d k n p e,
      int_of_float (converted_value self v) = Return n ->
      nth_error (deref h (_data_path self)) 1 = Some d ->
      nth_error (deref h (_data_path self)) 3 = Some k ->
      credential coordinator = Some p ->
      Coordinator._request_patch coordinator d k n p = Raise e ->
      outcome_of (async_set_native_value self coordinator v h) =
        Raise (if isinstance_HomeAssistantError e then e else WriteFailed e))
  /\ (forall cause,
        exc_class (WriteFailed cause) = HomeAssistantError
        /\ exc_context (WriteFailed cause) = Some cause
        /\ exc_str (WriteFailed cause)
           = ("Failed to set value: " ++ exc_str cause)%string)
  /\ (forall self coordinator v h,
        let r := async_set_native_value self coordinator v h in
        outcome_of r = Return tt ->
        exists d k n p response,
          calls (events_of r) = [RequestPatch d k n p; RequestRefresh]
          /\ Coordinator._request_patch coordinator d k n p = Return response
          /\ Coordinator.async_request_refresh coordinator = Return tt).
Proof using Type.
  split; [ | split ].
  - intros self coordinator v h d k n p e Hn Hd Hk Hp He.
    destruct (async_set_native_value_cases self coordinator v h) as [_ Hcases].
    cbv zeta in Hcases. rewrite Hn, Hd, Hk, Hp, He in Hcases.
    exact (proj2 Hcases).
  - intro cause. repeat split.
  - intros self coordinator v h r Hret. subst r.
    branch_cases (async_set_native_value_cases self coordinator v h); rewrite Hout in Hret; try discriminate.
    match goal with
    | Hp : Coordinator._request_patch coordinator ?d ?k ?n ?p = Return ?a |- _ =>
        exists d, k, n, p, a
    end.
    destruct (Coordinator.async_request_refresh coordinator) as [[] | ];
      [ auto | discriminate ].
Qed.

(** C6, as the code has it.  In every run the calls made are, in order,
    nothing, the update alone, or the update followed by the refresh
    request.  So a refresh is requested only after an update that
    returned, never after one that raised, and a write that returns
    normally has requested the refresh.  The request is awaited inside the
    [try] block (line 243): after an update that returned, the write ends
    as the awaited request ends, returning when it returns and raising
    when it raises, with the error surfaced as the [except] clauses do,
    although the update has been sent. *)
Theorem refresh_follows_successful_update :
  forall self coordinator v h,
    let r := async_set_native_value self coordinator v h in
    (In RequestRefresh (events_of r) ->
     exists d k n p response,
       calls (events_of r) = [RequestPatch d k n p; RequestRefresh]
       /\ Coordinator._request_patch coordinator d k n p = Return response)
    /\ (forall d k n p e,
          In (RequestPatch d k n p) (events_of r) ->
          Coordinator._request_patch coordinator d k n p = Raise e ->
          ~ In RequestRefresh (events_of r))
    /\ (outcome_of r = Return tt -> In RequestRefresh (events_of r))
    /\ (forall d k n p response,
          In (RequestPatch d k n p) (events_of r) ->
          Coordinator._request_patch coordinator d k n p = Return response ->
          calls (events_of r) = [RequestPatch d k n p; RequestRefresh]
          /\ outcome_of r =
               match Coordinator.async_request_refresh coordinator with
               | Return _ => Return tt
               | Raise e =>
                   Raise (if isinstance_HomeAssistantError e then e
                          else WriteFailed e)
               end).
Proof using Type.
  clear CHLORINATOR_ID HEATPUMP_ID float_of_str.
  intros self coordinator v h r. subst r.
  split; [ | split; [ | split ] ].
  - intros Hin. apply (In_events_calls RequestRefresh _ eq_refl) in Hin.
    branch_cases (async_set_native_value_cases self coordinator v h); rewrite Hcalls in Hin; simpl in Hin;
      try solve [ intuition discriminate ].
    match goal with
    | Hp : Coordinator._request_patch coordinator ?d ?k ?n ?p = Return ?a |- _ =>
        exists d, k, n, p, a; auto
    end.
  - intros d k n p e Hpatch Hraise Hin.
    apply (In_events_calls (RequestPatch d k n p) _ eq_refl) in Hpatch.
    apply (In_events_calls RequestRefresh _ eq_refl) in Hin.
    branch_cases (async_set_native_value_cases self coordinator v h); rewrite Hcalls in Hpatch, Hin;
      simpl in Hpatch, Hin; try solve [ intuition discriminate ].
    destruct Hpatch as [Heq | [Heq | []]]; [ | discriminate ].
    injection Heq as <- <- <- <-. congruence.
  - intros Hret.
    branch_cases (async_set_native_value_cases self coordinator v h); rewrite Hout in Hret; try discriminate.
    apply (In_calls RequestRefresh). rewrite Hcalls. simpl. auto.
  - intros d k n p response Hpatch Hreturn.
    apply (In_events_calls (RequestPatch d k n p) _ eq_refl) in Hpatch.
    branch_cases (async_set_native_value_cases self coordinator v h); rewrite Hcalls in Hpatch;
      simpl in Hpatch; try solve [ intuition discriminate ].
    + destruct Hpatch as [Heq | [Heq | []]]; [ | discriminate ].
      injection Heq as <- <- <- <-.
      split; [ exact Hcalls | ]. rewrite Hout. reflexivity.
    + destruct Hpatch as [Heq | []].
      injection Heq as <- <- <- <-. congruence.
Qed.

(** *** Setup *)

Lemma added_entities_app (l1 l2 : list Event) :
  added_entities (l1 ++ l2) = added_entities l1 ++ added_entities l2.
Proof using Type.
  induction l1 as [ | e l1 IH]; [ reflexivity | ].
  destruct e; simpl; rewrite IH; trivial.
  apply app_assoc.
Qed.

(** One pass of a loop over a description table writes the device id at
    index 1 of each entry's path list, builds one entity per entry, and
    calls nothing. *)
Lemma create_entities_chlor coordinator device_id a b c :
  let r := create_entities coordinator device_id NUMBER_DESCRIPTIONS_CHLOR
             (module_heap a b c) in
  heap_of r = module_heap device_id b c
  /\ calls (events_of r) = []
  /\ outcome_of r = Return (map (built coordinator) NUMBER_DESCRIPTIONS_CHLOR).
Proof using Type.
  unfold NUMBER_DESCRIPTIONS_CHLOR, module_heap.
  cbn -[_get_value_from_path].
  split_resolver; auto.
Qed.

Lemma create_entities_heatpump coordinator device_id a b c :
  let r := create_entities coordinator device_id NUMBER_DESCRIPTIONS_HEATPUMP
             (module_heap a b c) in
  heap_of r = module_heap a device_id device_id
  /\ calls (events_of r) = []
  /\ outcome_of r =
       Return (map (built coordinator) NUMBER_DESCRIPTIONS_HEATPUMP).
Proof using Type.
  unfold NUMBER_DESCRIPTIONS_HEATPUMP, module_heap.
  cbn -[_get_value_from_path].
  split_resolver; auto.
Qed.

Lemma added_entities_calls (evs : list Event) :
  calls evs = [] -> added_entities evs = [].
Proof using Type.
  induction evs as [ | e evs IH]; [ reflexivity | ].
  destruct e; simpl; auto; discriminate.
Qed.

(** Past its three checks, setup runs the chlorinator loop unless the
    chlorinator id is ["-1"], then the heat-pump loop unless the heat-pump id
    is ["-1"], and registers what the loops built, in that order. *)
Lemma async_setup_entry_valid coordinator data devices device0 a b c :
  Coordinator.data coordinator = Some data ->
  dict_get data "devices" = PDict devices ->
  dict_get devices "0" = PDict device0 ->
  let r := async_setup_entry coordinator (module_heap a b c) in
  let chlor_id := snd (discover_device_ids data) in
  let heatpump_id := fst (discover_device_ids data) in
  outcome_of r = Return tt
  /\ added_entities (events_of r) =
       (if (chlor_id =? "-1")%string then []
        else map (built coordinator) NUMBER_DESCRIPTIONS_CHLOR)
       ++ (if (heatpump_id =? "-1")%string then []
           else map (built coordinator) NUMBER_DESCRIPTIONS_HEATPUMP)
  /\ heap_of r =
       module_heap (if (chlor_id =? "-1")%string then a else chlor_id)
         (if (heatpump_id =? "-1")%string then b else heatpump_id)
         (if (heatpump_id =? "-1")%string then c else heatpump_id).
Proof using Type.
  intros Hdata Hdevices Hdevice0.
  unfold async_setup_entry.
  rewrite Hdata.
  destruct data as [ | entry data ]; [ discriminate Hdevices | ].
  rewrite Hdevices, Hdevice0.
  destruct (discover_device_ids (entry :: data)) as [heatpump_id chlor_id].
  cbn [fst snd].
  destruct (chlor_id =? "-1")%string; destruct (heatpump_id =? "-1")%string;
    cbn -[create_entities NUMBER_DESCRIPTIONS_CHLOR NUMBER_DESCRIPTIONS_HEATPUMP];
    repeat match goal with
      | |- context [create_entities coordinator ?id NUMBER_DESCRIPTIONS_CHLOR
                      (module_heap ?x ?y ?z)] =>
          let H := fresh "Hloop" in
          pose proof (create_entities_chlor coordinator id x y z) as H;
          cbv zeta in H;
          destruct (create_entities coordinator id NUMBER_DESCRIPTIONS_CHLOR
                      (module_heap x y z)) as [[? ?] ?];
          unfold heap_of, events_of, outcome_of in H; cbn [fst snd] in H;
          destruct H as [-> [? ->]];
          cbn -[create_entities NUMBER_DESCRIPTIONS_CHLOR
                NUMBER_DESCRIPTIONS_HEATPUMP]
      | |- context [create_entities coordinator ?id NUMBER_DESCRIPTIONS_HEATPUMP
                      (module_heap ?x ?y ?z)] =>
          let H := fresh "Hloop" in
          pose proof (create_entities_heatpump coordinator id x y z) as H;
          cbv zeta in H;
          destruct (create_entities coordinator id NUMBER_DESCRIPTIONS_HEATPUMP
                      (module_heap x y z)) as [[? ?] ?];
          unfold heap_of, events_of, outcome_of in H; cbn [fst snd] in H;
          destruct H as [-> [? ->]];
          cbn -[create_entities NUMBER_DESCRIPTIONS_CHLOR
                NUMBER_DESCRIPTIONS_HEATPUMP]
      end;
    cbn; rewrite ?added_entities_app;
    repeat match goal with
      | H : calls ?l = [] |- _ =>
          rewrite (added_entities_calls l H); clear H
      end;
    cbn; auto.
Qed.





(** A run of setup that fails one of its three checks. *)
Lemma async_setup_entry_invalid coordinator h :
  ~ valid_for_setup coordinator ->
  let r := async_setup_entry coordinator h in
  outcome_of r = Return tt
  /\ heap_of r = h
  /\ exists reason,
       events_of r =
         [Log debug "NUMBER_PLATFORM: Starting async_setup_entry for %s.";
          Log info "NUMBER_PLATFORM: Starting async_setup_entry for %s.";
          Log warning reason].
Proof using Type.
  intros Hinvalid r. subst r.
  unfold async_setup_entry.
  destruct (Coordinator.data coordinator) as [[ | entry data] | ] eqn:Hdata;
    try (cbn; eauto 6; fail).
  destruct (dict_get (entry :: data) "devices") as [ | | | | | | devices]
    eqn:Hdevices; try (cbn; eauto 6; fail).
  destruct (dict_get devices "0") as [ | | | | | | device0] eqn:Hdevice0;
    try (cbn; eauto 6; fail).
  exfalso. apply Hinvalid.
  exists (entry :: data), devices, device0.
  repeat split; trivial. discriminate.
Qed.

(** C10. Unless the tree is non-empty, has a mapping under ["devices"] and
    that mapping has a mapping under ["0"], setup returns without building
    or registering any entity and without touching the path lists: all it
    does is log its two start records and one warning. *)
Theorem setup_requires_device_zero :
  forall coordinator h,
    ~ valid_for_setup coordinator ->
    let r := async_setup_entry coordinator h in
    outcome_of r = Return tt
    /\ heap_of r = h
    /\ calls (events_of r) = []
    /\ added_entities (events_of r) = []
    /\ (exists reason,
          events_of r =
            [Log debug "NUMBER_PLATFORM: Starting async_setup_entry for %s.";
             Log info "NUMBER_PLATFORM: Starting async_setup_entry for %s.";
             Log warning reason]).
Proof using Type.
  intros coordinator h Hinvalid r.
  destruct (async_setup_entry_invalid coordinator h Hinvalid)
    as [Hout [Hheap [reason Hevents]]].
  fold r in Hout, Hheap, Hevents.
  split; [ exact Hout | ].
  split; [ exact Hheap | ].
  rewrite Hevents.
  split; [ reflexivity | ].
  split; [ reflexivity | ].
  exists reason. reflexivity.
Qed.

(** The path lists keep their shape: from any state [module_heap a b c]
    setup returns normally and leaves a state of the same form, so each
    list stays [["devices"; id; "config"; key]] with only the id at index 1
    changing. *)
Theorem setup_keeps_path_shape :
  forall coordinator a b c,
    let r := async_setup_entry coordinator (module_heap a b c) in
    outcome_of r = Return tt
    /\ exists a' b' c', heap_of r = module_heap a' b' c'.
Proof using Type.
  intros coordinator a b c r.
  destruct (Coordinator.data coordinator) as [data | ] eqn:Hdata.
  - destruct (dict_get data "devices") as [ | | | | | | devices] eqn:Hdevices.
    7: destruct (dict_get devices "0") as [ | | | | | | device0] eqn:Hdevice0.
    13: {
      destruct (async_setup_entry_valid coordinator data devices device0 a b c
                  Hdata Hdevices Hdevice0) as [Hout [_ Hheap]].
      split; [ exact Hout | eauto ]. }
    all: assert (Hinvalid : ~ valid_for_setup coordinator)
      by (intros [data' [devices' [device0' [Hd [_ [Hdev Hzero]]]]]];
          congruence).
    all: destruct (async_setup_entry_invalid coordinator (module_heap a b c)
                     Hinvalid) as [Hout [Hheap _]].
    all: split; [ exact Hout | eauto ].
  - assert (Hinvalid : ~ valid_for_setup coordinator)
      by (intros [data' [devices' [device0' [Hd _]]]]; congruence).
    destruct (async_setup_entry_invalid coordinator (module_heap a b c)
                Hinvalid) as [Hout [Hheap _]].
    split; [ exact Hout | eauto ].
Qed.
(** *** Rounding on binary64 *)

(** The operations of binary64 are specified ([mul_spec], [div_spec],
    [add_spec], [sub_spec]) by the functions of [SpecFloat], which compute
    the exact result as a mantissa, an exponent and a location and round it
    with [binary_round_aux].  The lemmas below bound the rounding error of
    one operation on positive numbers in the normal range; the two round
    trips are six operations each. *)













































(** *** The two conversions against each other *)


(** Rounding does not change what is sent: for every slider setting the
    integer computed on binary64 is the integer part of the exact Fahrenheit
    value of that setting. *)
Theorem settings_sent_as_exact_integer_part :
  Forall
    (fun c : float =>
       int_of_float (fahrenheit_of_celsius c)
       = Return (Qtrunc (fahrenheit_of_celsius (Q_of_float c))))
    setpoint_settings.
Proof using Type.
  unfold setpoint_settings.
  apply Forall_map, Forall_forall. intros k Hk.
  apply in_seq in Hk.
  assert (Hcases : exists j, (j < 71)%nat /\ k = (10 + j)%nat)
    by (exists (k - 10)%nat; lia).
  destruct Hcases as [j [Hj ->]].
  do 71 (destruct j as [ | j]; [ vm_compute; reflexivity | ]).
  lia.
Qed.

(** *** More on setup *)

Lemma calls_app (l1 l2 : list Event) : calls (l1 ++ l2) = calls l1 ++ calls l2.
Proof using Type. unfold calls. apply filter_app. Qed.

(** Past its three checks the only call setup makes is the registration,
    once, and only when a loop built something. *)
Lemma async_setup_entry_valid_calls coordinator data devices device0 a b c :
  Coordinator.data coordinator = Some data ->
  dict_get data "devices" = PDict devices ->
  dict_get devices "0" = PDict device0 ->
  let r := async_setup_entry coordinator (module_heap a b c) in
  let l := registered coordinator (fst (discover_device_ids data))
             (snd (discover_device_ids data)) in
  calls (events_of r) = match l with [] => [] | _ :: _ => [AddEntities l] end.
Proof using Type.
  intros Hdata Hdevices Hdevice0.
  unfold async_setup_entry, registered.
  rewrite Hdata.
  destruct data as [ | entry data ]; [ discriminate Hdevices | ].
  rewrite Hdevices, Hdevice0.
  destruct (discover_device_ids (entry :: data)) as [heatpump_id chlor_id].
  cbn [fst snd].
  destruct (chlor_id =? "-1")%string; destruct (heatpump_id =? "-1")%string;
    cbn -[create_entities NUMBER_DESCRIPTIONS_CHLOR NUMBER_DESCRIPTIONS_HEATPUMP];
    repeat match goal with
      | |- context [create_entities coordinator ?id NUMBER_DESCRIPTIONS_CHLOR
                      (module_heap ?x ?y ?z)] =>
          let H := fresh "Hloop" in
          pose proof (create_entities_chlor coordinator id x y z) as H;
          cbv zeta in H;
          destruct (create_entities coordinator id NUMBER_DESCRIPTIONS_CHLOR
                      (module_heap x y z)) as [[? ?] ?];
          unfold heap_of, events_of, outcome_of in H; cbn [fst snd] in H;
          destruct H as [-> [? ->]];
          cbn -[create_entities NUMBER_DESCRIPTIONS_CHLOR
                NUMBER_DESCRIPTIONS_HEATPUMP]
      | |- context [create_entities coordinator ?id NUMBER_DESCRIPTIONS_HEATPUMP
                      (module_heap ?x ?y ?z)] =>
          let H := fresh "Hloop" in
          pose proof (create_entities_heatpump coordinator id x y z) as H;
          cbv zeta in H;
          destruct (create_entities coordinator id NUMBER_DESCRIPTIONS_HEATPUMP
                      (module_heap x y z)) as [[? ?] ?];
          unfold heap_of, events_of, outcome_of in H; cbn [fst snd] in H;
          destruct H as [-> [? ->]];
          cbn -[create_entities NUMBER_DESCRIPTIONS_CHLOR
                NUMBER_DESCRIPTIONS_HEATPUMP]
      end;
    cbn; rewrite ?calls_app;
    repeat match goal with
      | H : calls ?l = [] |- _ => rewrite H; clear H
      end;
    cbn; auto.
Qed.

(** Whether the tree passes the three checks can be decided by looking. *)
Lemma valid_for_setup_dec coordinator :
  (exists data devices device0,
      Coordinator.data coordinator = Some data
      /\ dict_get data "devices" = PDict devices
      /\ dict_get devices "0" = PDict device0)
  \/ ~ valid_for_setup coordinator.
Proof using Type.
  destruct (Coordinator.data coordinator) as [data | ] eqn:Hdata.
  - destruct (dict_get data "devices") as [ | | | | | | devices] eqn:Hdevices.
    7: destruct (dict_get devices "0") as [ | | | | | | device0] eqn:Hdevice0.
    13: { left. exists data, devices, device0. auto. }
    all: right; intros [data' [devices' [device0' [Hd [_ [Hdev Hzero]]]]]];
      congruence.
  - right. intros [data' [devices' [device0' [Hd _]]]]. congruence.
Qed.

(** Setup leaves the path lists in a state of the form [module_heap]. *)
Lemma async_setup_entry_shape coordinator a b c :
  exists a' b' c',
    heap_of (async_setup_entry coordinator (module_heap a b c))
    = module_heap a' b' c'.
Proof using Type.
  destruct (valid_for_setup_dec coordinator)
    as [[data [devices [device0 [Hdata [Hdevices Hdevice0]]]]] | Hinvalid].
  - destruct (async_setup_entry_valid coordinator data devices device0 a b c
                Hdata Hdevices Hdevice0) as [_ [_ Hheap]].
    eauto.
  - destruct (async_setup_entry_invalid coordinator (module_heap a b c)
                Hinvalid) as [_ [Hheap _]].
    eauto.
Qed.

(** Past its checks, setup registers exactly the controls of the device
    types whose discovered id is not ["-1"], chlorinator first, and every
    registered entity's path list then reads
    [["devices"; id; "config"; key]] with the id discovered for its type.
    A type whose id is ["-1"], be it for want of a device or because the
    device's own key is ["-1"], gets no entity and its lists are not
    written. *)
Theorem setup_registers_by_discovered_ids :
  forall coordinator data devices device0 a b c,
    Coordinator.data coordinator = Some data ->
    dict_get data "devices" = PDict devices ->
    dict_get devices "0" = PDict device0 ->
    let r := async_setup_entry coordinator (module_heap a b c) in
    let heatpump_id := fst (discover_device_ids data) in
    let chlor_id := snd (discover_device_ids data) in
    let added := added_entities (events_of r) in
    outcome_of r = Return tt
    /\ added = registered coordinator heatpump_id chlor_id
    /\ (forall e, In e added ->
          deref (heap_of r) (_data_path e) =
            ["devices";
             match _data_path e with
             | chlorOutput_path => chlor_id
             | _ => heatpump_id
             end;
             "config"; path_key (_data_path e)])
    /\ (chlor_id <> "-1" ->
        In (built coordinator (chlor_output_control, chlorOutput_path, None))
           added)
    /\ (heatpump_id <> "-1" ->
        In (built coordinator (temperature_output_control, setpoint_path, None))
           added
        /\ In (built coordinator (heat_mode, mode_path, None)) added)
    /\ (chlor_id = "-1" ->
        Forall (fun e => _data_path e <> chlorOutput_path) added
        /\ chlorOutput_cell (heap_of r) = chlorOutput_cell (module_heap a b c))
    /\ (heatpump_id = "-1" ->
        Forall (fun e => _data_path e = chlorOutput_path) added
        /\ setpoint_cell (heap_of r) = setpoint_cell (module_heap a b c)
        /\ mode_cell (heap_of r) = mode_cell (module_heap a b c)).
Proof using Type.
  intros coordinator data devices device0 a b c Hdata Hdevices Hdevice0
    r heatpump_id chlor_id added.
  destruct (async_setup_entry_valid coordinator data devices device0 a b c
              Hdata Hdevices Hdevice0) as [Hout [Hadded Hheap]].
  fold r heatpump_id chlor_id in Hout, Hadded, Hheap. fold added in Hadded.
  split; [ exact Hout | ].
  split; [ exact Hadded | ].
  rewrite Hadded, Hheap. unfold registered.
  split; [ | split; [ | split; [ | split ] ] ].
  - intros e He. apply in_app_or in He.
    destruct He as [He | He].
    + destruct (chlor_id =? "-1")%string; [ contradiction | ].
      destruct He as [<- | []]. reflexivity.
    + destruct (heatpump_id =? "-1")%string; [ contradiction | ].
      destruct He as [<- | [<- | []]]; reflexivity.
  - intros Hne. apply String.eqb_neq in Hne. rewrite Hne.
    apply in_or_app. left. left. reflexivity.
  - intros Hne. apply String.eqb_neq in Hne. rewrite Hne.
    split; apply in_or_app; right; simpl; auto.
  - intros Heq. rewrite (proj2 (String.eqb_eq _ _) Heq).
    split; [ | reflexivity ].
    destruct (heatpump_id =? "-1")%string; repeat constructor; discriminate.
  - intros Heq. rewrite (proj2 (String.eqb_eq _ _) Heq).
    rewrite app_nil_r.
    split; [ | split; reflexivity ].
    destruct (chlor_id =? "-1")%string; repeat constructor.
Qed.

(** Whatever the tree, setup never calls the update operation and never
    requests a refresh.  A run that fails one of the three checks calls
    nothing.  A run that passes them calls the registration callback at
    most once, with the entities the chlorinator loop returned followed by
    those the heat-pump loop returned, the second loop running on the path
    lists as the first left them; it does not call it when both loops
    returned nothing. *)
Theorem setup_calls_only_registration :
  forall coordinator a b c,
    let r := async_setup_entry coordinator (module_heap a b c) in
    (forall d k n p, ~ In (RequestPatch d k n p) (events_of r))
    /\ ~ In RequestRefresh (events_of r)
    /\ calls (events_of r) =
         match added_entities (events_of r) with
         | [] => []
         | l => [AddEntities l]
         end
    /\ (~ valid_for_setup coordinator -> calls (events_of r) = [])
    /\ (forall data devices device0,
          Coordinator.data coordinator = Some data ->
          dict_get data "devices" = PDict devices ->
          dict_get devices "0" = PDict device0 ->
          let heatpump_id := fst (discover_device_ids data) in
          let chlor_id := snd (discover_device_ids data) in
          let chlor_loop : M (list PoolSyncChlorOutputNumberEntity) :=
            if negb (chlor_id =? "-1")%string
            then create_entities coordinator chlor_id NUMBER_DESCRIPTIONS_CHLOR
            else ret [] in
          let heatpump_loop : M (list PoolSyncChlorOutputNumberEntity) :=
            if negb (heatpump_id =? "-1")%string
            then create_entities coordinator heatpump_id
                   NUMBER_DESCRIPTIONS_HEATPUMP
            else ret [] in
          let r1 := chlor_loop (module_heap a b c) in
          let r2 := heatpump_loop (heap_of r1) in
          exists chlor_entities heatpump_entities,
            outcome_of r1 = Return chlor_entities
            /\ outcome_of r2 = Return heatpump_entities
            /\ calls (events_of r) =
                 match chlor_entities ++ heatpump_entities with
                 | [] => []
                 | l => [AddEntities l]
                 end).
Proof using Type.
  intros coordinator a b c r.
  assert (Hcalls : calls (events_of r) =
                     match added_entities (events_of r) with
                     | [] => []
                     | l => [AddEntities l]
                     end).
  { destruct (valid_for_setup_dec coordinator)
      as [[data [devices [device0 [Hdata [Hdevices Hdevice0]]]]] | Hinvalid].
    - pose proof (async_setup_entry_valid_calls coordinator data devices device0
                    a b c Hdata Hdevices Hdevice0) as Hcalls.
      destruct (async_setup_entry_valid coordinator data devices device0 a b c
                  Hdata Hdevices Hdevice0) as [_ [Hadded _]].
      cbv zeta in Hcalls. fold r in Hcalls, Hadded.
      rewrite Hadded, Hcalls. unfold registered.
      destruct (_ ++ _); reflexivity.
    - destruct (async_setup_entry_invalid coordinator (module_heap a b c)
                  Hinvalid) as [_ [_ [reason Hevents]]].
      fold r in Hevents. rewrite Hevents. reflexivity. }
  split; [ | split; [ | split; [ exact Hcalls | split ] ] ].
  - intros d k n p Hin.
    apply (In_events_calls (RequestPatch d k n p) _ eq_refl) in Hin.
    rewrite Hcalls in Hin.
    destruct (added_entities (events_of r)); simpl in Hin;
      [ contradiction | destruct Hin as [Heq | []]; discriminate Heq ].
  - intros Hin.
    apply (In_events_calls RequestRefresh _ eq_refl) in Hin.
    rewrite Hcalls in Hin.
    destruct (added_entities (events_of r)); simpl in Hin;
      [ contradiction | destruct Hin as [Heq | []]; discriminate Heq ].
  - intros Hinvalid.
    destruct (async_setup_entry_invalid coordinator (module_heap a b c)
                Hinvalid) as [_ [_ [reason Hevents]]].
    fold r in Hevents. rewrite Hevents. reflexivity.
  - intros data devices device0 Hdata Hdevices Hdevice0.
    pose proof (async_setup_entry_valid_calls coordinator data devices device0
                  a b c Hdata Hdevices Hdevice0) as Hvalid.
    cbv zeta in Hvalid. fold r in Hvalid.
    destruct (discover_device_ids data) as [heatpump_id chlor_id].
    cbn [fst snd] in *.
    unfold registered in Hvalid.
    destruct (chlor_id =? "-1")%string; destruct (heatpump_id =? "-1")%string;
      cbn [negb]; cbv zeta.
    + exists [], []. auto.
    + destruct (create_entities_heatpump coordinator heatpump_id a b c)
        as [_ [_ Hloop]].
      exists [], (map (built coordinator) NUMBER_DESCRIPTIONS_HEATPUMP).
      split; [ reflexivity | ]. split; [ exact Hloop | exact Hvalid ].
    + destruct (create_entities_chlor coordinator chlor_id a b c)
        as [Hheap [_ Hloop]].
      exists (map (built coordinator) NUMBER_DESCRIPTIONS_CHLOR), [].
      split; [ exact Hloop | ]. split; [ reflexivity | exact Hvalid ].
    + destruct (create_entities_chlor coordinator chlor_id a b c)
        as [Hheap [_ Hloop]].
      cbv zeta in Hheap. rewrite Hheap.
      destruct (create_entities_heatpump coordinator heatpump_id chlor_id b c)
        as [_ [_ Hloop2]].
      exists (map (built coordinator) NUMBER_DESCRIPTIONS_CHLOR),
        (map (built coordinator) NUMBER_DESCRIPTIONS_HEATPUMP).
      split; [ exact Hloop | ]. split; [ exact Hloop2 | exact Hvalid ].
Qed.

(** Running setup again for the same coordinator changes nothing: the path
    lists stay as the first run left them and the same entities are
    registered. *)
Theorem setup_is_idempotent :
  forall coordinator a b c,
    let r1 := async_setup_entry coordinator (module_heap a b c) in
    let r2 := async_setup_entry coordinator (heap_of r1) in
    heap_of r2 = heap_of r1
    /\ added_entities (events_of r2) = added_entities (events_of r1)
    /\ calls (events_of r2) = calls (events_of r1)
    /\ outcome_of r2 = outcome_of r1.
Proof using Type.
  intros coordinator a b c r1 r2. subst r2.
  destruct (valid_for_setup_dec coordinator)
    as [[data [devices [device0 [Hdata [Hdevices Hdevice0]]]]] | Hinvalid].
  - destruct (async_setup_entry_valid coordinator data devices device0 a b c
                Hdata Hdevices Hdevice0) as [Hout1 [Hadded1 Hheap1]].
    pose proof (async_setup_entry_valid_calls coordinator data devices device0
                  a b c Hdata Hdevices Hdevice0) as Hcalls1.
    cbv zeta in Hcalls1. fold r1 in Hout1, Hadded1, Hheap1, Hcalls1.
    rewrite Hheap1.
    match goal with
    | |- context [async_setup_entry coordinator (module_heap ?x ?y ?z)] =>
        destruct (async_setup_entry_valid coordinator data devices device0
                    x y z Hdata Hdevices Hdevice0) as [Hout2 [Hadded2 Hheap2]];
        pose proof (async_setup_entry_valid_calls coordinator data devices
                      device0 x y z Hdata Hdevices Hdevice0) as Hcalls2
    end.
    cbv zeta in Hcalls2.
    rewrite Hout1, Hadded1, Hcalls1, Hout2, Hadded2, Hcalls2, Hheap2.
    repeat split.
    destruct (snd (discover_device_ids data) =? "-1")%string;
      destruct (fst (discover_device_ids data) =? "-1")%string; reflexivity.
  - destruct (async_setup_entry_invalid coordinator (module_heap a b c)
                Hinvalid) as [Hout1 [Hheap1 [reason1 Hevents1]]].
    fold r1 in Hout1, Hheap1, Hevents1. rewrite Hheap1.
    fold r1. auto.
Qed.


(** The entities share the module's path lists.  Once setup has run for a
    second coordinator, a path list whose device type that run found holds
    the second installation's id, whatever an earlier run for another
    coordinator had written there: an entity of the first coordinator that
    reads and writes through the list now sends its updates to that id, and
    reads Absent when its own tree has nothing under it. *)
Theorem later_setup_redirects_earlier_entities :
  forall first second data devices device0 a b c self v,
    Coordinator.data second = Some data ->
    dict_get data "devices" = PDict devices ->
    dict_get devices "0" = PDict device0 ->
    let id :=
      match _data_path self with
      | chlorOutput_path => snd (discover_device_ids data)
      | _ => fst (discover_device_ids data)
      end in
    id <> "-1" ->
    let h1 := heap_of (async_setup_entry first (module_heap a b c)) in
    let h2 := heap_of (async_setup_entry second h1) in
    let path := ["devices"; id; "config"; path_key (_data_path self)] in
    deref h2 (_data_path self) = path
    /\ (forall d k n p,
          In (RequestPatch d k n p)
             (events_of (async_set_native_value self first v h2)) ->
          d = id)
    /\ (_get_value_from_path (data_value first) path = None ->
        outcome_of (native_value self first h2) = Return None).
Proof using Type.
  intros first second data devices device0 a b c self v
    Hdata Hdevices Hdevice0 id Hid h1 h2 path.
  assert (Hpath : deref h2 (_data_path self) = path).
  { subst h2 path.
    destruct (async_setup_entry_shape first a b c) as [a1 [b1 [c1 Hh1]]].
    fold h1 in Hh1. rewrite Hh1.
    destruct (async_setup_entry_valid second data devices device0 a1 b1 c1
                Hdata Hdevices Hdevice0) as [_ [_ Hheap]].
    rewrite Hheap. subst id.
    apply String.eqb_neq in Hid.
    destruct (_data_path self); cbn [deref module_heap chlorOutput_cell
      setpoint_cell mode_cell path_key]; rewrite Hid; reflexivity. }
  clearbody h2. clear h1.
  split; [ exact Hpath | ].
  split.
  - intros d k n p Hin.
    apply (In_events_calls (RequestPatch d k n p) _ eq_refl) in Hin.
    branch_cases (async_set_native_value_cases self first v h2);
      rewrite Hcalls in Hin; simpl in Hin;
      try solve [ intuition discriminate ];
      match goal with
      | Hd : nth_error (deref _ _) 1%nat = Some _ |- _ =>
          rewrite Hpath in Hd; injection Hd as <-
      end;
      (destruct Hin as [Heq | Hin];
       [ injection Heq as <- _ _ _; reflexivity
       | simpl in Hin; intuition discriminate ]).
  - intros Hnone.
    destruct (native_value_cases self first h2) as [_ Hcases].
    rewrite Hpath, Hnone in Hcases. exact (proj2 Hcases).
Qed.

(** *** More on writing *)

Lemma surfaced_is_HomeAssistantError (e : PyExc) :
  isinstance_HomeAssistantError (surfaced e) = true.
Proof using Type.
  unfold surfaced.
  destruct (isinstance_HomeAssistantError e) eqn:He; [ exact He | reflexivity ].
Qed.

(** On the path lists as setup leaves them the two positional reads of a
    write, [datapath[1]] and [datapath[3]], always succeed: the update is
    called with the device id the control's list holds and with the
    control's key, and the only exceptions a write can raise are the one
    [int] raises on NaN or an infinity and [HomeAssistantError] (or a class
    derived from it). *)
Theorem write_decodes_registered_path :
  forall self coordinator v a b c,
    let r := async_set_native_value self coordinator v (module_heap a b c) in
    (forall d k n p,
        In (RequestPatch d k n p) (events_of r) ->
        d = path_device a b c (_data_path self)
        /\ k = path_key (_data_path self)
        /\ credential coordinator = Some p
        /\ int_of_float (converted_value self v) = Return n)
    /\ (forall e,
          outcome_of r = Raise e ->
          int_of_float (converted_value self v) = Raise e
          \/ isinstance_HomeAssistantError e = true).
Proof using Type.
  clear CHLORINATOR_ID HEATPUMP_ID float_of_str.
  intros self coordinator v a b c r. subst r.
  assert (H1 : nth_error (deref (module_heap a b c) (_data_path self)) 1
               = Some (path_device a b c (_data_path self)))
    by (destruct (_data_path self); reflexivity).
  assert (H3 : nth_error (deref (module_heap a b c) (_data_path self)) 3
               = Some (path_key (_data_path self)))
    by (destruct (_data_path self); reflexivity).
  destruct (async_set_native_value_cases self coordinator v (module_heap a b c))
    as [_ Hcases].
  cbv zeta in Hcases. rewrite H1, H3 in Hcases.
  split.
  - intros d k n p Hin.
    apply (In_events_calls (RequestPatch d k n p) _ eq_refl) in Hin.
    destruct (int_of_float (converted_value self v)) as [n' | e];
      [ | destruct Hcases as [Hcalls _]; rewrite Hcalls in Hin; contradiction ].
    destruct (credential coordinator) as [p' | ];
      [ | destruct Hcases as [Hcalls _]; rewrite Hcalls in Hin; contradiction ].
    destruct (Coordinator._request_patch coordinator _ _ n' p');
      destruct Hcases as [Hcalls _]; rewrite Hcalls in Hin; simpl in Hin;
      destruct Hin as [Heq | Hin];
      try (injection Heq as <- <- <- <-; auto);
      simpl in Hin; intuition discriminate.
  - intros e Hraise.
    destruct (int_of_float (converted_value self v)) as [n' | e'].
    + right.
      destruct (credential coordinator) as [p' | ].
      * destruct (Coordinator._request_patch coordinator _ _ n' p');
          destruct Hcases as [_ Hout]; rewrite Hout in Hraise.
        -- destruct (Coordinator.async_request_refresh coordinator);
             [ discriminate | ].
           injection Hraise as <-. apply surfaced_is_HomeAssistantError.
        -- injection Hraise as <-. apply surfaced_is_HomeAssistantError.
      * destruct Hcases as [_ Hout]. rewrite Hout in Hraise.
        injection Hraise as <-. reflexivity.
    + left. destruct Hcases as [_ Hout]. rewrite Hout in Hraise.
      congruence.
Qed.

(** A write never retries and never touches anything else: it leaves the
    path lists as they are and its calls are none, one update, or one update
    followed by one refresh request. *)
Theorem write_calls_update_at_most_once :
  forall self coordinator v h,
    let r := async_set_native_value self coordinator v h in
    heap_of r = h
    /\ (calls (events_of r) = []
        \/ exists d k n p,
             calls (events_of r) = [RequestPatch d k n p]
             \/ calls (events_of r) = [RequestPatch d k n p; RequestRefresh]).
Proof using Type.
  clear CHLORINATOR_ID HEATPUMP_ID float_of_str.
  intros self coordinator v h r. subst r.
  branch_cases (async_set_native_value_cases self coordinator v h);
    (split; [ exact Hheap | ]); rewrite Hcalls; eauto 8.
Qed.

(** When the update returns and the refresh request then raises, the write
    raises (the refresh error itself if it is a [HomeAssistantError],
    wrapped otherwise) although the update has been sent. *)
Theorem refresh_failure_fails_write_after_update :
  forall self coordinator v h d k n p response e,
    int_of_float (converted_value self v) = Return n ->
    nth_error (deref h (_data_path self)) 1 = Some d ->
    nth_error (deref h (_data_path self)) 3 = Some k ->
    credential coordinator = Some p ->
    Coordinator._request_patch coordinator d k n p = Return response ->
    Coordinator.async_request_refresh coordinator = Raise e ->
    let r := async_set_native_value self coordinator v h in
    calls (events_of r) = [RequestPatch d k n p; RequestRefresh]
    /\ outcome_of r =
         Raise (if isinstance_HomeAssistantError e then e else WriteFailed e).
Proof using Type.
  intros self coordinator v h d k n p response e Hn Hd Hk Hp Hpatch Hrefresh r.
  destruct (async_set_native_value_cases self coordinator v h) as [_ Hcases].
  cbv zeta in Hcases.
  rewrite Hn, Hd, Hk, Hp, Hpatch, Hrefresh in Hcases.
  exact Hcases.
Qed.

(** *** Discovery never invents an id *)

Lemma first_key_of_type_listed (deviceTypes : Dict) (ty : string) :
  first_key_of_type deviceTypes ty = "-1"
  \/ In (first_key_of_type deviceTypes ty, PStr ty) deviceTypes.
Proof using Type.
  unfold first_key_of_type.
  destruct (filter (fun kv => py_eq_str (snd kv) ty) deviceTypes)
    as [ | [k v] rest] eqn:Hfilter; [ left; reflexivity | right ].
  assert (Hin : In (k, v) (filter (fun kv => py_eq_str (snd kv) ty) deviceTypes))
    by (rewrite Hfilter; left; reflexivity).
  apply filter_In in Hin. destruct Hin as [Hin Heq]. cbn in Heq |- *.
  destruct v; try discriminate.
  apply String.eqb_eq in Heq. subst. exact Hin.
Qed.

Lemma dict_value_unique (d : Dict) (k : string) (v1 v2 : PyVal) :
  NoDup (map fst d) -> In (k, v1) d -> In (k, v2) d -> v1 = v2.
Proof using Type.
  induction d as [ | [k' v'] d IH]; intros Hnodup H1 H2; [ contradiction | ].
  inversion Hnodup as [ | ? ? Hnotin Hrest]; subst.
  cbn [map fst] in Hnotin.
  destruct H1 as [E1 | H1]; destruct H2 as [E2 | H2].
  - congruence.
  - exfalso. apply Hnotin. apply (in_map fst) in H2.
    injection E1 as -> _. exact H2.
  - exfalso. apply Hnotin. apply (in_map fst) in H1.
    injection E2 as -> _. exact H1.
  - exact (IH Hrest H1 H2).
Qed.

(** The id discovery gives for a type is ["-1"] or the key of an entry of
    that type; and since a dictionary has each key once, the heat-pump id
    and the chlorinator id are the same only when both are ["-1"]: no
    device is taken for both. *)
Theorem discovery_yields_listed_ids :
  forall deviceTypes,
    (forall ty,
        first_key_of_type deviceTypes ty = "-1"
        \/ In (first_key_of_type deviceTypes ty, PStr ty) deviceTypes)
    /\ (NoDup (map fst deviceTypes) ->
        first_key_of_type deviceTypes "heatPump"
        = first_key_of_type deviceTypes "chlorSync" ->
        first_key_of_type deviceTypes "heatPump" = "-1"
        /\ first_key_of_type deviceTypes "chlorSync" = "-1").
Proof using Type.
  intro deviceTypes.
  split; [ intro ty; apply first_key_of_type_listed | ].
  intros Hnodup Hsame.
  destruct (first_key_of_type_listed deviceTypes "heatPump") as [Hheat | Hheat];
    [ split; congruence | ].
  destruct (first_key_of_type_listed deviceTypes "chlorSync") as [Hchlor | Hchlor];
    [ split; congruence | ].
  rewrite Hsame in Hheat.
  pose proof (dict_value_unique deviceTypes _ _ _ Hnodup Hheat Hchlor).
  discriminate.
Qed.

(** *** Unique ids *)

Lemma chars_append (s1 s2 : string) :
  chars (s1 ++ s2)%string = chars s1 ++ chars s2.
Proof using Type.
  induction s1 as [ | ch s1 IH]; [ reflexivity | ].
  cbn. rewrite IH. reflexivity.
Qed.

Lemma chars_inj (s1 s2 : string) : chars s1 = chars s2 -> s1 = s2.
Proof using Type.
  revert s2. induction s1 as [ | ch s1 IH]; intros [ | ch2 s2] H;
    try discriminate; [ reflexivity | ].
  injection H as -> H. rewrite (IH _ H). reflexivity.
Qed.

(** An address, an underscore and a key of the tables determine the address
    and the key. *)
Lemma table_keys_separate :
  (forall c1 c2 entry1 entry2,
      In entry1 all_descriptions ->
      In entry2 all_descriptions ->
      _attr_unique_id (built c1 entry1) = _attr_unique_id (built c2 entry2) ->
      Coordinator.mac_address c1 = Coordinator.mac_address c2
      /\ entry1 = entry2)
  /\ (forall coordinator heatpump_id chlor_id,
        NoDup (map _attr_unique_id
                 (registered coordinator heatpump_id chlor_id))).
Proof using Type.
  clear CHLORINATOR_ID HEATPUMP_ID float_of_str.
  assert (Hinj : forall c1 c2 entry1 entry2,
             In entry1 all_descriptions ->
             In entry2 all_descriptions ->
             _attr_unique_id (built c1 entry1) = _attr_unique_id (built c2 entry2) ->
             Coordinator.mac_address c1 = Coordinator.mac_address c2
             /\ entry1 = entry2).
  { intros c1 c2 entry1 entry2 H1 H2 Hid.
    apply (f_equal chars) in Hid.
    unfold all_descriptions in H1, H2. simpl in H1, H2.
    destruct H1 as [<- | [<- | [<- | []]]];
      destruct H2 as [<- | [<- | [<- | []]]];
      cbn [built _attr_unique_id NumberEntityDescription.key
           chlor_output_control temperature_output_control heat_mode] in Hid;
      rewrite !chars_append in Hid;
      try (apply app_inv_tail in Hid; apply chars_inj in Hid;
           split; [ exact Hid | reflexivity ]);
      apply (f_equal (@rev ascii)) in Hid;
      rewrite !rev_app_distr in Hid; simpl in Hid; discriminate Hid. }
  split; [ exact Hinj | ].
  intros coordinator heatpump_id chlor_id. unfold registered.
  assert (Hne : forall entry1 entry2,
             In entry1 all_descriptions -> In entry2 all_descriptions ->
             entry1 <> entry2 ->
             _attr_unique_id (built coordinator entry1)
             <> _attr_unique_id (built coordinator entry2)).
  { intros entry1 entry2 H1 H2 Hdiff Hid.
    apply Hdiff. exact (proj2 (Hinj _ _ _ _ H1 H2 Hid)). }
  assert (Hcs : (chlor_output_control, chlorOutput_path, @None (PyVal -> PyVal))
                <> (temperature_output_control, setpoint_path, None))
    by discriminate.
  assert (Hcm : (chlor_output_control, chlorOutput_path, @None (PyVal -> PyVal))
                <> (heat_mode, mode_path, None))
    by discriminate.
  assert (Hsm : (temperature_output_control, setpoint_path, @None (PyVal -> PyVal))
                <> (heat_mode, mode_path, None))
    by discriminate.
  assert (Hinc : In (chlor_output_control, chlorOutput_path, @None (PyVal -> PyVal))
                   all_descriptions) by (simpl; auto).
  assert (Hins : In (temperature_output_control, setpoint_path, @None (PyVal -> PyVal))
                   all_descriptions) by (simpl; auto).
  assert (Hinm : In (heat_mode, mode_path, @None (PyVal -> PyVal))
                   all_descriptions) by (simpl; auto).
  pose proof (Hne _ _ Hinc Hins Hcs) as Ncs.
  pose proof (Hne _ _ Hinc Hinm Hcm) as Ncm.
  pose proof (Hne _ _ Hins Hinm Hsm) as Nsm.
  destruct (chlor_id =? "-1")%string; destruct (heatpump_id =? "-1")%string;
    cbn [map app NUMBER_DESCRIPTIONS_CHLOR NUMBER_DESCRIPTIONS_HEATPUMP];
    repeat (constructor; [ simpl; intuition | ]); constructor.
Qed.

(** The unique id [__init__] gives an entity, the coordinator's address, an
    underscore and the description's key, determines both: two entities
    constructed from entries of the tables have the same unique id only if
    they were constructed from the same entry, for coordinators with the
    same address.  So the entities a run of [async_setup_entry] hands to
    the registration callback have pairwise different unique ids, whatever
    the coordinator's data. *)
Theorem unique_id_identifies_control :
  (forall coordinator description data_path value_fn h,
      exists self,
        outcome_of (__init__ coordinator description data_path value_fn h)
        = Return self
        /\ _attr_unique_id self =
             (Coordinator.mac_address coordinator ++ "_"
                ++ NumberEntityDescription.key description)%string)
  /\ (forall c1 c2 d1 p1 f1 d2 p2 f2 h1 h2 self1 self2,
        In (d1, p1, f1) all_descriptions ->
        In (d2, p2, f2) all_descriptions ->
        outcome_of (__init__ c1 d1 p1 f1 h1) = Return self1 ->
        outcome_of (__init__ c2 d2 p2 f2 h2) = Return self2 ->
        _attr_unique_id self1 = _attr_unique_id self2 ->
        Coordinator.mac_address c1 = Coordinator.mac_address c2
        /\ (d1, p1, f1) = (d2, p2, f2))
  /\ (forall coordinator a b c,
        let r := async_setup_entry coordinator (module_heap a b c) in
        NoDup (map _attr_unique_id (added_entities (events_of r)))).
Proof using Type.
  split; [ | split ].
  - intros coordinator description data_path value_fn h.
    eexists. split; reflexivity.
  - intros c1 c2 d1 p1 f1 d2 p2 f2 h1 h2 self1 self2 H1 H2 Hself1 Hself2 Hid.
    cbn in Hself1, Hself2.
    injection Hself1 as <-. injection Hself2 as <-.
    exact (proj1 table_keys_separate c1 c2 _ _ H1 H2 Hid).
  - intros coordinator a b c r.
    destruct (valid_for_setup_dec coordinator)
      as [[data [devices [device0 [Hdata [Hdevices Hdevice0]]]]] | Hinvalid].
    + destruct (async_setup_entry_valid coordinator data devices device0 a b c
                  Hdata Hdevices Hdevice0) as [_ [Hadded _]].
      fold r in Hadded. rewrite Hadded.
      exact (proj2 table_keys_separate coordinator _ _).
    + destruct (async_setup_entry_invalid coordinator (module_heap a b c)
                  Hinvalid) as [_ [_ [reason Hevents]]].
      fold r in Hevents. rewrite Hevents. constructor.
Qed.

(** *** Writing, then reading what was written *)

(** Reading an integer the tree holds at the entity's path. *)
Lemma native_value_of_int self coordinator h (n : Z) (f : float) :
  _get_value_from_path (data_value coordinator) (deref h (_data_path self))
  = Some (PInt n) ->
  float_of_int n = Return f ->
  native_value self coordinator h =
    (h, [],
     Return (Some (if is_CELSIUS
                        (NumberEntityDescription.native_unit_of_measurement
                           (entity_description self))
                   then ((f - 32) * 5 / 9)%float
                   else f))).
Proof using Type.
  intros Hfound Hfloat.
  destruct (native_value_cases self coordinator h) as [Hheap Hcases].
  rewrite Hfound in Hcases. cbn [float_of_value] in Hcases.
  rewrite Hfloat in Hcases. destruct Hcases as [Hev Hout].
  destruct (native_value self coordinator h) as [[h' evs] o].
  unfold heap_of, events_of, outcome_of in *. cbn in *. congruence.
Qed.

(** What a user sees after moving a slider, when the device reports back
    the integer it was sent.  A setpoint setting [c] (5 to 40 in steps of
    0.5) is sent as a whole Fahrenheit degree between 41 and 104 and then
    reads as some [r] with [c - 0.5 <= r <= c]: the fraction dropped by
    [int] can cost up to half a degree Celsius.  Reading a stored degree and
    writing the reading back sends the same degree again, so repeated
    round trips do not drift.  A chlorinator setting (0 to 100 in steps of
    1) reads back as itself. *)
Theorem write_then_read_round_trip :
  Forall
    (fun c : float =>
       exists n : Z,
         int_of_float (converted_value setpoint_entity c) = Return n
         /\ 41 <= n <= 104
         /\ forall coordinator h,
              _get_value_from_path (data_value coordinator)
                (deref h (_data_path setpoint_entity)) = Some (PInt n) ->
              exists r : float,
                native_value setpoint_entity coordinator h
                = (h, [], Return (Some r))
                /\ PrimFloat.leb r c = true
                /\ PrimFloat.leb (c - r) 0.5 = true)
    setpoint_settings
  /\ Forall
       (fun n : Z =>
          forall coordinator h,
            _get_value_from_path (data_value coordinator)
              (deref h (_data_path setpoint_entity)) = Some (PInt n) ->
            exists r : float,
              native_value setpoint_entity coordinator h
              = (h, [], Return (Some r))
              /\ int_of_float (converted_value setpoint_entity r) = Return n)
       fahrenheit_degrees
  /\ Forall
       (fun c : float =>
          exists n : Z,
            int_of_float (converted_value chlor_entity c) = Return n
            /\ 0 <= n <= 100
            /\ forall coordinator h,
                 _get_value_from_path (data_value coordinator)
                   (deref h (_data_path chlor_entity)) = Some (PInt n) ->
                 native_value chlor_entity coordinator h
                 = (h, [], Return (Some c)))
       chlor_settings.
Proof using Type.
  split; [ | split ].
  - unfold setpoint_settings.
    apply Forall_map, Forall_forall. intros k Hk.
    apply in_seq in Hk.
    assert (Hcases : exists j, (j < 71)%nat /\ k = (10 + j)%nat)
      by (exists (k - 10)%nat; lia).
    destruct Hcases as [j [Hj ->]].
    do 71 (destruct j as [ | j];
           [ eexists; split; [ vm_compute; reflexivity | ];
             split; [ lia | ];
             intros coordinator h Hfound;
             eexists; split;
             [ match type of Hfound with
               | _ = Some (PInt ?n) =>
                   apply (native_value_of_int setpoint_entity coordinator h
                            n (b64_of_Z n) Hfound)
               end;
               vm_compute; reflexivity
             | split; vm_compute; reflexivity ]
           | ]).
    lia.
  - unfold fahrenheit_degrees.
    apply Forall_map, Forall_forall. intros k Hk.
    apply in_seq in Hk.
    assert (Hcases : exists j, (j < 64)%nat /\ k = (41 + j)%nat)
      by (exists (k - 41)%nat; lia).
    destruct Hcases as [j [Hj ->]].
    do 64 (destruct j as [ | j];
           [ intros coordinator h Hfound;
             eexists; split;
             [ match type of Hfound with
               | _ = Some (PInt ?n) =>
                   apply (native_value_of_int setpoint_entity coordinator h
                            n (b64_of_Z n) Hfound)
               end;
               vm_compute; reflexivity
             | vm_compute; reflexivity ]
           | ]).
    lia.
  - unfold chlor_settings.
    apply Forall_map, Forall_forall. intros k Hk.
    apply in_seq in Hk.
    assert (Hcases : exists j, (j < 101)%nat /\ k = j)
      by (exists k; lia).
    destruct Hcases as [j [Hj ->]].
    do 101 (destruct j as [ | j];
            [ eexists; split; [ vm_compute; reflexivity | ];
              split; [ lia | ];
              intros coordinator h Hfound;
              match type of Hfound with
              | _ = Some (PInt ?n) =>
                  apply (native_value_of_int chlor_entity coordinator h
                           n (b64_of_Z n) Hfound)
              end;
              vm_compute; reflexivity
            | ]).
    lia.
Qed.

End Platform.

(** ** The properties at concrete inputs *)

(** The write of 23.9 on the example setpoint reaches the update operation
    as 75. *)
Lemma write_sends_truncated_conversion_witness :
  let coordinator :=
    example_coordinator (Some example_tree) (Some "secret")
      (Return PNone) (Return tt) in
  let h := module_heap "5" "7" "7" in
  nth_error (deref h (_data_path setpoint_entity)) 1 = Some "7"
  /\ nth_error (deref h (_data_path setpoint_entity)) 3 = Some "setpoint"
  /\ credential coordinator = Some "secret"
  /\ int_of_float (converted_value setpoint_entity 23.9%float) = Return 75
  /\ In (RequestPatch "7" "setpoint" 75 "secret")
        (events_of (async_set_native_value setpoint_entity coordinator
                      23.9%float h)).
Proof.
  cbv zeta.
  split; [ reflexivity | ].
  split; [ reflexivity | ].
  split; [ reflexivity | ].
  split; [ vm_compute; reflexivity | ].
  apply (proj1 (proj2 write_sends_truncated_conversion));
    solve [ reflexivity | vm_compute; reflexivity ].
Defined.

(** The setpoint 98.6 of the example tree reads 37.0. *)
Lemma read_converts_fahrenheit_witness :
  let coordinator :=
    example_coordinator (Some example_tree) None (Return PNone) (Return tt) in
  let h := module_heap "5" "7" "7" in
  _get_value_from_path (data_value coordinator)
    (deref h (_data_path setpoint_entity)) = Some (PFloat 98.6)
  /\ float_of_value (fun _ => None) (PFloat 98.6) = Return 98.6%float
  /\ native_value (fun _ => None) setpoint_entity coordinator h
     = (h, [], Return (Some ((98.6 - 32) * 5 / 9)%float)).
Proof.
  cbv zeta.
  split; [ reflexivity | ].
  split; [ reflexivity | ].
  apply (proj1 (read_converts_fahrenheit (fun _ => None))
           setpoint_entity _ _ (PFloat 98.6) 98.6%float);
    reflexivity.
Defined.

(** A string [float] rejects is logged and read as Absent. *)
Lemma read_absorbs_value_and_type_errors_witness :
  let tree := [("devices", PDict [("5", PDict [("config",
                 PDict [("chlorOutput", PStr "n/a")])])])] in
  let coordinator :=
    example_coordinator (Some tree) None (Return PNone) (Return tt) in
  let h := module_heap "5" "7" "7" in
  let r := native_value (fun _ => None) chlor_entity coordinator h in
  _get_value_from_path (data_value coordinator)
    (deref h (_data_path chlor_entity)) = Some (PStr "n/a")
  /\ (exists template, events_of r = [Log error template])
  /\ outcome_of r = Return None.
Proof.
  cbv zeta.
  split; [ reflexivity | ].
  apply (proj1 (proj2 (proj2
           (read_absorbs_value_and_type_errors (fun _ => None) chlor_entity
              (example_coordinator _ None (Return PNone) (Return tt))
              (module_heap "5" "7" "7"))))
           (PStr "n/a")
           (Exc ValueError "could not convert string to float" None));
    reflexivity.
Defined.

(** C4 as stated fails on NaN: without a credential the write of NaN raises
    [ValueError] from [int], before the credential is looked at. *)
Lemma write_of_nan_without_credential :
  let coordinator :=
    example_coordinator (Some example_tree) None (Return PNone) (Return tt) in
  let r :=
    async_set_native_value setpoint_entity coordinator nan
      (module_heap "5" "7" "7") in
  credential coordinator = None
  /\ outcome_of r =
       Raise (Exc ValueError "cannot convert float NaN to integer" None)
  /\ outcome_of r <> Raise CredentialUnavailable.
Proof.
  cbv zeta.
  split; [ reflexivity | ].
  split; [ vm_compute; reflexivity | ].
  vm_compute. discriminate.
Qed.

(** Without a password the write of 20.0 fails with the missing-credential
    error and calls nothing. *)
Lemma write_without_credential_witness :
  let coordinator :=
    example_coordinator (Some example_tree) None (Return PNone) (Return tt) in
  let r :=
    async_set_native_value setpoint_entity coordinator 20%float
      (module_heap "5" "7" "7") in
  credential coordinator = None
  /\ calls (events_of r) = []
  /\ ~ In RequestRefresh (events_of r)
  /\ outcome_of r = Raise CredentialUnavailable.
Proof.
  cbv zeta.
  split; [ reflexivity | ].
  split; [ vm_compute; reflexivity | ].
  destruct (write_without_credential setpoint_entity
              (example_coordinator (Some example_tree) None
                 (Return PNone) (Return tt))
              20%float (module_heap "5" "7" "7") eq_refl)
    as [_ [Hrefresh Hout]].
  split; [ exact Hrefresh | ].
  apply (Hout 68 "7" "setpoint"); solve [ reflexivity | vm_compute; reflexivity ].
Defined.

(** A client error of the update operation comes back wrapped. *)
Lemma write_failure_is_surfaced_witness :
  let cause := Exc (OtherException "ClientError") "connection reset" None in
  let coordinator :=
    example_coordinator (Some example_tree) (Some "secret")
      (Raise cause) (Return tt) in
  let h := module_heap "5" "7" "7" in
  int_of_float (converted_value chlor_entity 50%float) = Return 50
  /\ nth_error (deref h (_data_path chlor_entity)) 1 = Some "5"
  /\ nth_error (deref h (_data_path chlor_entity)) 3 = Some "chlorOutput"
  /\ credential coordinator = Some "secret"
  /\ Coordinator._request_patch coordinator "5" "chlorOutput" 50 "secret"
     = Raise cause
  /\ outcome_of (async_set_native_value chlor_entity coordinator 50%float h)
     = Raise (Exc HomeAssistantError "Failed to set value: connection reset"
                (Some cause)).
Proof.
  cbv zeta.
  split; [ vm_compute; reflexivity | ].
  split; [ reflexivity | ].
  split; [ reflexivity | ].
  split; [ reflexivity | ].
  split; [ reflexivity | ].
  apply (proj1 write_failure_is_surfaced chlor_entity
           (example_coordinator (Some example_tree) (Some "secret")
              (Raise (Exc (OtherException "ClientError") "connection reset" None))
              (Return tt))
           50%float (module_heap "5" "7" "7") "5" "chlorOutput" 50 "secret"
           (Exc (OtherException "ClientError") "connection reset" None));
    solve [ reflexivity | vm_compute; reflexivity ].
Defined.

(** A write that returns has requested the refresh. *)
Lemma refresh_follows_successful_update_witness :
  let coordinator :=
    example_coordinator (Some example_tree) (Some "secret")
      (Return PNone) (Return tt) in
  let r :=
    async_set_native_value mode_entity coordinator 2%float
      (module_heap "5" "7" "7") in
  outcome_of r = Return tt /\ In RequestRefresh (events_of r).
Proof.
  cbv zeta.
  split; [ vm_compute; reflexivity | ].
  apply (proj1 (proj2 (proj2 (refresh_follows_successful_update mode_entity
           (example_coordinator (Some example_tree) (Some "secret")
              (Return PNone) (Return tt))
           2%float (module_heap "5" "7" "7"))))).
  vm_compute. reflexivity.
Defined.

(** The write does wait for the refresh request: two coordinators that
    differ only in how the awaited request ends make the same calls, the
    update reaching the device in both runs, yet the write returns with
    the one and raises with the other. *)
Lemma write_waits_for_refresh_request :
  let cause := Exc (OtherException "TimeoutError") "timed out" None in
  let answering :=
    example_coordinator (Some example_tree) (Some "secret")
      (Return PNone) (Return tt) in
  let failing :=
    example_coordinator (Some example_tree) (Some "secret")
      (Return PNone) (Raise cause) in
  let h := module_heap "5" "7" "7" in
  let r1 := async_set_native_value mode_entity answering 2%float h in
  let r2 := async_set_native_value mode_entity failing 2%float h in
  calls (events_of r1) = [RequestPatch "7" "mode" 2 "secret"; RequestRefresh]
  /\ calls (events_of r2) = calls (events_of r1)
  /\ outcome_of r1 = Return tt
  /\ outcome_of r2 = Raise (WriteFailed cause).
Proof. vm_compute. repeat split. Defined.




(** Before the first refresh the coordinator has no data and setup
    registers nothing. *)
Lemma setup_requires_device_zero_witness :
  let coordinator :=
    example_coordinator None (Some "secret") (Return PNone) (Return tt) in
  let r := async_setup_entry "0" "1" coordinator (initial_heap "0" "1") in
  ~ valid_for_setup coordinator
  /\ outcome_of r = Return tt
  /\ added_entities (events_of r) = [].
Proof.
  cbv zeta.
  assert (Hinvalid : ~ valid_for_setup
                       (example_coordinator None (Some "secret")
                          (Return PNone) (Return tt))).
  { intros [data [devices [device0 [Hdata _]]]]. discriminate Hdata. }
  split; [ exact Hinvalid | ].
  destruct (setup_requires_device_zero "0" "1" _ (initial_heap "0" "1") Hinvalid)
    as [Hout [_ [_ [Hadded _]]]].
  split; [ exact Hout | exact Hadded ].
Defined.



(** After setup for the example installation and then for a second one
    whose chlorinator is device "2", the first installation's chlorinator
    entity sends its updates to "2" and reads Absent. *)
Lemma later_setup_redirects_earlier_entities_witness :
  let first :=
    example_coordinator (Some example_tree) (Some "secret")
      (Return PNone) (Return tt) in
  let second :=
    example_coordinator (Some second_tree) (Some "other")
      (Return PNone) (Return tt) in
  let h1 := heap_of (async_setup_entry "0" "1" first (initial_heap "0" "1")) in
  let h2 := heap_of (async_setup_entry "0" "1" second h1) in
  snd (discover_device_ids "0" "1" second_tree) <> "-1"
  /\ native_value (fun _ => None) chlor_entity first h1
     = (h1, [], Return (Some 42%float))
  /\ deref h2 chlorOutput_path = ["devices"; "2"; "config"; "chlorOutput"]
  /\ (forall d k n p,
        In (RequestPatch d k n p)
           (events_of (async_set_native_value chlor_entity first 50%float h2)) ->
        d = "2")
  /\ outcome_of (native_value (fun _ => None) chlor_entity first h2)
     = Return None.
Proof.
  cbv zeta.
  assert (Hid : snd (discover_device_ids "0" "1" second_tree) <> "-1")
    by (vm_compute; discriminate).
  split; [ exact Hid | ].
  split; [ vm_compute; reflexivity | ].
  destruct (later_setup_redirects_earlier_entities "0" "1" (fun _ => None)
              (example_coordinator (Some example_tree) (Some "secret")
                 (Return PNone) (Return tt))
              (example_coordinator (Some second_tree) (Some "other")
                 (Return PNone) (Return tt))
              second_tree
              [("0", PDict []);
               ("2", PDict [("config", PDict [("chlorOutput", PInt 10)])])]
              [] "0" "1" "1" chlor_entity 50%float
              eq_refl eq_refl eq_refl Hid)
    as [Hpath [Hsent Hread]].
  split; [ exact Hpath | ].
  split; [ exact Hsent | ].
  apply Hread. reflexivity.
Defined.

(** A heat pump listed under the key "-1" is discovered as "-1" and so gets
    no control: only the chlorinator control is registered. *)
Lemma setup_registers_by_discovered_ids_witness :
  let coordinator :=
    example_coordinator (Some sentinel_keyed_tree) (Some "secret")
      (Return PNone) (Return tt) in
  let r := async_setup_entry "0" "1" coordinator (initial_heap "0" "1") in
  discover_device_ids "0" "1" sentinel_keyed_tree = ("-1", "0")
  /\ outcome_of r = Return tt
  /\ added_entities (events_of r) = [chlor_entity]
  /\ Forall (fun e => _data_path e = chlorOutput_path)
       (added_entities (events_of r))
  /\ setpoint_cell (heap_of r) = ["devices"; "1"; "config"; "setpoint"].
Proof.
  cbv zeta.
  split; [ reflexivity | ].
  destruct (setup_registers_by_discovered_ids "0" "1"
              (example_coordinator (Some sentinel_keyed_tree) (Some "secret")
                 (Return PNone) (Return tt))
              sentinel_keyed_tree
              [("0", PDict [("config", PDict [("chlorOutput", PInt 42)])]);
               ("-1", PDict [("config", PDict [("setpoint", PInt 80)])])]
              [("config", PDict [("chlorOutput", PInt 42)])]
              "0" "1" "1" eq_refl eq_refl eq_refl)
    as [Hout [Hadded [_ [_ [_ [_ Hskip]]]]]].
  destruct (Hskip eq_refl) as [Hall [Hcell _]].
  split; [ exact Hout | ].
  split; [ exact Hadded | ].
  split; [ exact Hall | exact Hcell ].
Defined.

(** A write through the setpoint list of the example installation calls
    the update for device "7" and key "setpoint". *)
Lemma write_decodes_registered_path_witness :
  let coordinator :=
    example_coordinator (Some example_tree) (Some "secret")
      (Return PNone) (Return tt) in
  let r :=
    async_set_native_value setpoint_entity coordinator 30%float
      (module_heap "5" "7" "7") in
  In (RequestPatch "7" "setpoint" 86 "secret") (events_of r)
  /\ "7" = path_device "5" "7" "7" (_data_path setpoint_entity)
  /\ "setpoint" = path_key (_data_path setpoint_entity)
  /\ credential coordinator = Some "secret"
  /\ int_of_float (converted_value setpoint_entity 30%float) = Return 86.
Proof.
  cbv zeta.
  assert (Hin : In (RequestPatch "7" "setpoint" 86 "secret")
                  (events_of
                     (async_set_native_value setpoint_entity
                        (example_coordinator (Some example_tree) (Some "secret")
                           (Return PNone) (Return tt))
                        30%float (module_heap "5" "7" "7"))))
    by (vm_compute; auto 10).
  split; [ exact Hin | ].
  exact (proj1 (write_decodes_registered_path setpoint_entity
                  (example_coordinator (Some example_tree) (Some "secret")
                     (Return PNone) (Return tt))
                  30%float "5" "7" "7")
           "7" "setpoint" 86 "secret" Hin).
Defined.

(** The update goes through and the refresh request times out: the write
    fails, wrapped, after the update was sent. *)
Lemma refresh_failure_fails_write_after_update_witness :
  let cause := Exc (OtherException "TimeoutError") "timed out" None in
  let coordinator :=
    example_coordinator (Some example_tree) (Some "secret")
      (Return PNone) (Raise cause) in
  let r :=
    async_set_native_value chlor_entity coordinator 50%float
      (module_heap "5" "7" "7") in
  int_of_float (converted_value chlor_entity 50%float) = Return 50
  /\ credential coordinator = Some "secret"
  /\ Coordinator.async_request_refresh coordinator = Raise cause
  /\ calls (events_of r) = [RequestPatch "5" "chlorOutput" 50 "secret"; RequestRefresh]
  /\ outcome_of r =
       Raise (Exc HomeAssistantError "Failed to set value: timed out" (Some cause)).
Proof.
  cbv zeta.
  split; [ vm_compute; reflexivity | ].
  split; [ reflexivity | ].
  split; [ reflexivity | ].
  apply (refresh_failure_fails_write_after_update chlor_entity
           (example_coordinator (Some example_tree) (Some "secret")
              (Return PNone)
              (Raise (Exc (OtherException "TimeoutError") "timed out" None)))
           50%float (module_heap "5" "7" "7") "5" "chlorOutput" 50 "secret"
           PNone (Exc (OtherException "TimeoutError") "timed out" None));
    solve [ reflexivity | vm_compute; reflexivity ].
Defined.

(** The setting 23.5 is sent as 74 and then reads between 23.0 and 23.5. *)
Lemma write_then_read_round_trip_witness :
  In 23.5%float setpoint_settings
  /\ exists n : Z,
       int_of_float (converted_value setpoint_entity 23.5%float) = Return n
       /\ 41 <= n <= 104
       /\ forall coordinator h,
            _get_value_from_path (data_value coordinator)
              (deref h (_data_path setpoint_entity)) = Some (PInt n) ->
            exists r : float,
              native_value (fun _ => None) setpoint_entity coordinator h
              = (h, [], Return (Some r))
              /\ PrimFloat.leb r 23.5 = true
              /\ PrimFloat.leb (23.5 - r) 0.5 = true.
Proof.
  assert (Hin : In 23.5%float setpoint_settings) by (vm_compute; auto 50).
  split; [ exact Hin | ].
  exact (proj1 (Forall_forall _ _)
           (proj1 (write_then_read_round_trip (fun _ => None)))
           23.5%float Hin).
Defined.

(** In a mapping with a chlorinator "5" and a heat pump "7" the two ids
    discovered differ. *)
Lemma discovery_yields_listed_ids_witness :
  let deviceTypes := [("5", PStr "chlorSync"); ("7", PStr "heatPump")] in
  NoDup (map fst deviceTypes)
  /\ In (first_key_of_type deviceTypes "heatPump", PStr "heatPump") deviceTypes
  /\ first_key_of_type deviceTypes "heatPump"
     <> first_key_of_type deviceTypes "chlorSync".
Proof.
  cbv zeta.
  assert (Hnodup : NoDup (map fst [("5", PStr "chlorSync"); ("7", PStr "heatPump")])).
  { repeat constructor; simpl; intuition discriminate. }
  split; [ exact Hnodup | ].
  destruct (discovery_yields_listed_ids
              [("5", PStr "chlorSync"); ("7", PStr "heatPump")])
    as [Hlisted Hdistinct].
  split.
  - destruct (Hlisted "heatPump") as [Hnone | Hin];
      [ discriminate Hnone | exact Hin ].
  - intros Hsame. destruct (Hdistinct Hnodup Hsame) as [Hheat _].
    discriminate Hheat.
Defined.

(** Two installations register their chlorinator controls under different
    unique ids exactly because their addresses differ. *)
Lemma unique_id_identifies_control_witness :
  let c1 := example_coordinator None None (Return PNone) (Return tt) in
  let h := initial_heap "0" "1" in
  In (chlor_output_control, chlorOutput_path, @None (PyVal -> PyVal))
    all_descriptions
  /\ outcome_of (__init__ c1 chlor_output_control chlorOutput_path None h)
     = Return chlor_entity
  /\ (forall c2 self,
        outcome_of (__init__ c2 chlor_output_control chlorOutput_path None h)
        = Return self ->
        _attr_unique_id self = _attr_unique_id chlor_entity ->
        Coordinator.mac_address c2 = "00:11:22:33:44:55").
Proof.
  cbv zeta.
  assert (Hin : In (chlor_output_control, chlorOutput_path, @None (PyVal -> PyVal))
                  all_descriptions) by (left; reflexivity).
  split; [ exact Hin | ].
  split; [ reflexivity | ].
  intros c2 self Hself Hid.
  exact (proj1 (proj1 (proj2 (unique_id_identifies_control "0" "1")) c2
                  (example_coordinator None None (Return PNone) (Return tt))
                  chlor_output_control chlorOutput_path None
                  chlor_output_control chlorOutput_path None
                  (initial_heap "0" "1") (initial_heap "0" "1")
                  self chlor_entity Hin Hin Hself eq_refl Hid)).
Defined.

Lemma setup_calls_only_registration_witness :
  let coordinator :=
    example_coordinator (Some example_tree) (Some "secret")
      (Return PNone) (Return tt) in
  let r := async_setup_entry "0" "1" coordinator (initial_heap "0" "1") in
  calls (events_of r) =
    [AddEntities [chlor_entity; setpoint_entity; mode_entity]].
Proof.
  cbv zeta.
  destruct (proj2 (proj2 (proj2 (proj2
              (setup_calls_only_registration "0" "1"
                 (example_coordinator (Some example_tree) (Some "secret")
                    (Return PNone) (Return tt))
                 "0" "1" "1"))))
              example_tree
              [("0", PDict []);
               ("5", PDict [("config", PDict [("chlorOutput", PInt 42)])]);
               ("7", PDict [("config", PDict [("setpoint", PFloat 98.6);
                                              ("mode", PInt 1)])])]
              [] eq_refl eq_refl eq_refl)
    as [chlor_entities [heatpump_entities [Hchlor [Hheatpump Hcalls]]]].
  vm_compute in Hchlor. vm_compute in Hheatpump.
  injection Hchlor as <-. injection Hheatpump as <-.
  exact Hcalls.
Defined.
